(** * Project membership and versioning (src/server/project.ts)

    A shallow embedding of the [Project] class of the TypeScript language
    server and of its [ConfiguredProject] subclass, with the properties of
    root-file bookkeeping, version counters, the diff protocol of
    [getChangesSinceVersion] and the watch registrations.

    Conventions of the embedding.
    - A method [m(args)] of a class becomes a function [m args this] that
      returns the object after the call (and the method's result, if any).
    - JavaScript numbers used as counters are integers of [Z]; the counters
      start at 0 and only ever grow by one, far below the range where a
      double stops being exact.
    - [undefined] is [None]; a truthiness test on an object reference is a
      test for [Some].
    - Collaborators that live outside this file of the server (the language
      service, the script-info registry, the host) are not implemented here:
      what they return is an argument of the operation that calls them, and
      each call that reaches them is appended to a ghost trace [calls]. *)

From stdpp Require Import base gmap strings list.
From stdpp Require Import pretty.
From Stdlib Require Import ZArith.

#[local] Set Warnings "-clear-no-such-hyp".

Open Scope Z_scope.

(** ** Objects used as string-keyed maps ([Map<T>] of the compiler's core)

    The code base of this version uses plain objects as maps and walks them
    with [for (const id in map)].  An object enumerates its own string keys
    in the order of their first assignment, and assigning to an existing key
    keeps its position: an association list with unique keys.  (Keys that
    spell an array index would be enumerated first; the keys here are file
    and directory paths, and the properties proved below are about
    membership, not about order.) *)

Module JsMap.

Abbreviation Map T := (list (string * T)).

Definition ownKeys {T} (map : Map T) : list string := map.*1.

(** [hasProperty(map, key)]: [hasOwnProperty.call(map, key)]. *)
Definition hasProperty {T} (map : Map T) (key : string) : bool :=
  bool_decide (key ∈ ownKeys map).

(** [map[key] = value]. *)
Fixpoint assign {T} (map : Map T) (key : string) (value : T) : Map T :=
  match map with
  | [] => [(key, value)]
  | (k, v) :: rest =>
      if decide (k = key) then (k, value) :: rest
      else (k, v) :: assign rest key value
  end.

(** Modelled from the spec: [arrayToMap] is a helper of the compiler's core
    that is not part of this file of the server; it starts from an empty
    object and assigns [result[makeKey(value)] = value] for every element of
    the array, in order. *)
Definition arrayToMap {T} (array : list T) (makeKey : T → string) : Map T :=
  foldl (λ result value, assign result (makeKey value) value) [] array.

(** Modelled from the spec: [reduceProperties(map, callback, initial)] folds
    the callback over the own properties of [map] in enumeration order; an
    absent map gives [initial]. *)
Definition reduceProperties {T U} (map : option (Map T))
    (callback : U → T → string → U) (initial : U) : U :=
  match map with
  | Some map => foldl (λ result kv, callback result kv.2 kv.1) initial map
  | None => initial
  end.

End JsMap.
Import JsMap.

(** ** Data model *)

Abbreviation NormalizedPath := string.
Abbreviation Path := string.

Inductive ProjectKind : Type := Inferred | Configured | External.

Global Instance ProjectKind_eq_dec : EqDecision ProjectKind.
Proof. solve_decision. Defined.

(** Compiler options are an object with optional properties. *)
Inductive OptionValue : Type :=
  | OptBoolean (b : bool)
  | OptNumber (n : Z)
  | OptString (s : string).

Abbreviation CompilerOptions := (gmap string OptionValue).

(** Modelled from the spec: the class [ScriptInfo] is declared in
    scriptInfo.ts.  A script info is a unit of source content identified by
    its path: the registry of the project service owns these objects and
    keeps one per [path], so two references are the same object exactly when
    their paths agree.  [fileName] and [path] are read-only. *)
Record ScriptInfo : Type := mkScriptInfo {
  fileName : NormalizedPath;
  path : Path;
  isOpen : bool
}.

Record SourceFile : Type := mkSourceFile {
  sourceFileName : string;
  sourceFilePath : Path
}.

(** Modelled from the spec: [ts.Program] is the opaque program handle of the
    analysis engine, with its source files in program order.  [programId]
    stands for the identity of the object ([this.program !== oldProgram]
    compares references). *)
Record Program : Type := mkProgram {
  programId : nat;
  getSourceFiles : list SourceFile
}.

(** Modelled from the spec: [Program.getSourceFileByPath] is a method of the
    analysis engine; it finds the source file of the program with the given
    path, if any. *)
Definition getSourceFileByPath (program : Program) (p : Path) : option SourceFile :=
  List.find (λ sourceFile, bool_decide (sourceFilePath sourceFile = p))
            (getSourceFiles program).

(** What [languageService.getProgram()] does as seen from [updateGraph]: it
    returns the current program and, when it had to build a new one, it has
    recorded on the OLD program object whether its structure was reused.
    [oldStructureIsReused] is that flag as it stands on the old object when
    the call returns, which is when [updateGraph] reads it. *)
Record GetProgramResult : Type := mkGetProgramResult {
  currentProgram : Program;
  oldStructureIsReused : bool
}.

(** Modelled from the spec: the two bindings of [lsHost] and
    [languageService], declared in lshost.ts and utilities.ts.  The live
    host keeps the compilation settings it was given last; on the null
    binding every call is a no-op. *)
Inductive LsHostBinding : Type :=
  | nullLanguageServiceHost
  | LSHost (compilationSettings : option CompilerOptions).

Inductive LanguageServiceBinding : Type :=
  | nullLanguageService
  | createLanguageService.

Abbreviation FileWatcher := nat.

(** Calls that reach a collaborator, in the order they are made. *)
Inductive Call : Type :=
  | LSHost_setCompilationSettings (options : option CompilerOptions)
  | LSHost_removeRoot (info : ScriptInfo)
  | LSHost_removeReferencedFile (info : ScriptInfo)
  | LanguageService_getProgram
  | ScriptInfo_attachToProject (info : ScriptInfo)
  | ScriptInfo_detachFromProject (info : ScriptInfo).

Record Project : Type := mkProject {
  projectKind : ProjectKind;
  (** result of the abstract [getProjectName()] *)
  projectName : string;
  rootFiles : list ScriptInfo;
  (** [FileMap<ScriptInfo>]: [set] is insertion, [contains] a lookup that
      succeeds, [remove] deletion *)
  rootFilesMap : gmap Path ScriptInfo;
  lsHost : LsHostBinding;
  program : option Program;
  languageService : LanguageServiceBinding;
  lastReportedFileNames : option (Map string);
  lastReportedVersion : Z;
  projectStructureVersion : Z;
  projectStateVersion : Z;
  languageServiceEnabled : bool;
  compilerOptions : option CompilerOptions;
  (** ghost: calls made on collaborators so far *)
  calls : list Call
}.

(** Field updates. *)
Definition set_roots (l : list ScriptInfo) (m : gmap Path ScriptInfo) (p : Project) : Project :=
  mkProject (projectKind p) (projectName p) l m (lsHost p) (program p)
    (languageService p) (lastReportedFileNames p) (lastReportedVersion p)
    (projectStructureVersion p) (projectStateVersion p)
    (languageServiceEnabled p) (compilerOptions p) (calls p).

Definition set_binding (h : LsHostBinding) (ls : LanguageServiceBinding) (enabled : bool)
    (p : Project) : Project :=
  mkProject (projectKind p) (projectName p) (rootFiles p) (rootFilesMap p) h (program p)
    ls (lastReportedFileNames p) (lastReportedVersion p)
    (projectStructureVersion p) (projectStateVersion p)
    enabled (compilerOptions p) (calls p).

Definition set_lsHost (h : LsHostBinding) (p : Project) : Project :=
  set_binding h (languageService p) (languageServiceEnabled p) p.

Definition set_program (g : option Program) (p : Project) : Project :=
  mkProject (projectKind p) (projectName p) (rootFiles p) (rootFilesMap p) (lsHost p) g
    (languageService p) (lastReportedFileNames p) (lastReportedVersion p)
    (projectStructureVersion p) (projectStateVersion p)
    (languageServiceEnabled p) (compilerOptions p) (calls p).

Definition set_lastReported (names : option (Map string)) (v : Z) (p : Project) : Project :=
  mkProject (projectKind p) (projectName p) (rootFiles p) (rootFilesMap p) (lsHost p)
    (program p) (languageService p) names v
    (projectStructureVersion p) (projectStateVersion p)
    (languageServiceEnabled p) (compilerOptions p) (calls p).

Definition set_projectStructureVersion (v : Z) (p : Project) : Project :=
  mkProject (projectKind p) (projectName p) (rootFiles p) (rootFilesMap p) (lsHost p)
    (program p) (languageService p) (lastReportedFileNames p) (lastReportedVersion p)
    v (projectStateVersion p)
    (languageServiceEnabled p) (compilerOptions p) (calls p).

Definition set_projectStateVersion (v : Z) (p : Project) : Project :=
  mkProject (projectKind p) (projectName p) (rootFiles p) (rootFilesMap p) (lsHost p)
    (program p) (languageService p) (lastReportedFileNames p) (lastReportedVersion p)
    (projectStructureVersion p) v
    (languageServiceEnabled p) (compilerOptions p) (calls p).

Definition set_compilerOptions (o : option CompilerOptions) (p : Project) : Project :=
  mkProject (projectKind p) (projectName p) (rootFiles p) (rootFilesMap p) (lsHost p)
    (program p) (languageService p) (lastReportedFileNames p) (lastReportedVersion p)
    (projectStructureVersion p) (projectStateVersion p)
    (languageServiceEnabled p) o (calls p).

Definition call (c : Call) (p : Project) : Project :=
  mkProject (projectKind p) (projectName p) (rootFiles p) (rootFilesMap p) (lsHost p)
    (program p) (languageService p) (lastReportedFileNames p) (lastReportedVersion p)
    (projectStructureVersion p) (projectStateVersion p)
    (languageServiceEnabled p) (compilerOptions p) (calls p ++ [c]).

(** ** The [Project] class *)

(** The response of [getChangesSinceVersion] ([protocol.ProjectFiles]). *)
Record ProjectInfo : Type := mkProjectInfo {
  info_projectName : string;
  version : Z;
  isInferred : bool
}.

Record ProjectChanges : Type := mkProjectChanges {
  added : list string;
  removed : list string
}.

Record ProjectFiles : Type := mkProjectFiles {
  info : ProjectInfo;
  files : option (list string);
  changes : option ProjectChanges
}.

(** Modelled from the spec: [copyListRemovingItem(item, list)] is a helper of
    the server's utilities that is not part of this file; it copies the list
    without the item.  The item is a script-info reference, identified by its
    path. *)
Definition copyListRemovingItem (item : ScriptInfo) (l : list ScriptInfo) : list ScriptInfo :=
  filter (λ e, path e ≠ path item) l.

Definition allowNonTsExtensions : string := "allowNonTsExtensions".
Definition allowJs : string := "allowJs".

Section Project.

(** [getDefaultLibFilePath(options)] belongs to the services layer; [None]
    stands for a result that fails the test [if (defaultLibrary)]. *)
Variable getDefaultLibFilePath : CompilerOptions → option NormalizedPath.

(** [ts.getDefaultCompilerOptions()]. *)
Variable getDefaultCompilerOptions : CompilerOptions.

(** [projectService.getScriptInfoForNormalizedPath]: the registry lookup. *)
Variable registry : NormalizedPath → option ScriptInfo.

Definition markAsDirty (this : Project) : Project :=
  set_projectStateVersion (projectStateVersion this + 1) this.

(** A call on [this.lsHost]: the null host ignores it. *)
Definition onLsHost (c : Call) (this : Project) : Project :=
  match lsHost this with
  | LSHost _ => call c this
  | nullLanguageServiceHost => this
  end.

Definition lsHost_setCompilationSettings (options : option CompilerOptions)
    (this : Project) : Project :=
  match lsHost this with
  | LSHost _ =>
      call (LSHost_setCompilationSettings options) (set_lsHost (LSHost options) this)
  | nullLanguageServiceHost => this
  end.

(** A fresh [LSHost] is built, given the current options and bound. *)
Definition enableLanguageService (this : Project) : Project :=
  let this := call (LSHost_setCompilationSettings (compilerOptions this)) this in
  set_binding (LSHost (compilerOptions this)) createLanguageService true this.

Definition disableLanguageService (this : Project) : Project :=
  set_binding nullLanguageServiceHost nullLanguageService false this.

(** The constructor of [Project]; [name] is what the subclass answers to
    [getProjectName()]. *)
Definition newProject (kind : ProjectKind) (name : string)
    (hasExplicitListOfFiles : bool) (enabled : bool)
    (options : option CompilerOptions) : Project :=
  let options :=
    match options with
    | None =>
        <[allowJs := OptBoolean true]>
          (<[allowNonTsExtensions := OptBoolean true]> getDefaultCompilerOptions)
    | Some o =>
        if hasExplicitListOfFiles
        then <[allowNonTsExtensions := OptBoolean true]> o
        else o
    end in
  let this :=
    mkProject kind name [] ∅ nullLanguageServiceHost None nullLanguageService
              None 0 0 0 enabled (Some options) [] in
  let this :=
    if enabled then enableLanguageService this else disableLanguageService this in
  markAsDirty this.

Definition getProjectVersion (this : Project) : Z := projectStateVersion this.

Definition getCompilerOptions (this : Project) : option CompilerOptions :=
  compilerOptions this.

Definition getRootFiles (this : Project) : list NormalizedPath :=
  fileName <$> rootFiles this.

Definition getFileNames (this : Project) : list NormalizedPath :=
  match program this with
  | None => []
  | Some program =>
      if negb (languageServiceEnabled this) then
        let rootFiles := getRootFiles this in
        match compilerOptions this with
        | Some options =>
            match getDefaultLibFilePath options with
            | Some defaultLibrary => rootFiles ++ [defaultLibrary]
            | None => rootFiles
            end
        | None => rootFiles
        end
      else sourceFileName <$> getSourceFiles program
  end.

(** [this.program && this.program.getSourceFileByPath(info.path) !== undefined]:
    the value of [this.program] itself, that is [undefined], while no
    program has been computed. *)
Definition containsScriptInfo (info : ScriptInfo) (this : Project) : option bool :=
  match program this with
  | None => None
  | Some program => Some (bool_decide (is_Some (getSourceFileByPath program (path info))))
  end.

(** [requireOpen] is an optional argument. *)
Definition containsFile (filename : NormalizedPath) (requireOpen : option bool)
    (this : Project) : option bool :=
  match registry filename with
  | Some info =>
      if negb (default false requireOpen) || isOpen info
      then containsScriptInfo info this
      else None
  | None => None
  end.

Definition isRoot (info : ScriptInfo) (this : Project) : bool :=
  bool_decide (is_Some (rootFilesMap this !! path info)).

Definition addRoot (info : ScriptInfo) (this : Project) : Project :=
  if negb (isRoot info this) then
    let this :=
      set_roots (rootFiles this ++ [info]) (<[path info := info]> (rootFilesMap this)) this in
    let this := call (ScriptInfo_attachToProject info) this in
    markAsDirty this
  else this.

Definition removeRoot (info : ScriptInfo) (this : Project) : bool * Project :=
  if isRoot info this then
    let this :=
      set_roots (copyListRemovingItem info (rootFiles this))
                (delete (path info) (rootFilesMap this)) this in
    (true, onLsHost (LSHost_removeRoot info) this)
  else (false, this).

Definition removeReferencedFile (info : ScriptInfo) (this : Project) : Project :=
  onLsHost (LSHost_removeReferencedFile info) this.

(** [detachFromProject] defaults to [true] at the call site. *)
Definition removeFile (info : ScriptInfo) (detachFromProject : bool)
    (this : Project) : Project :=
  let '(removedRoot, this) := removeRoot info this in
  let this := if removedRoot then this else removeReferencedFile info this in
  let this :=
    if detachFromProject then call (ScriptInfo_detachFromProject info) this else this in
  markAsDirty this.

(** [r] is what [this.languageService.getProgram()] does on this call. *)
Definition updateGraph (r : GetProgramResult) (this : Project) : Project :=
  if negb (languageServiceEnabled this) then this
  else
    let oldProgram := program this in
    let this := call LanguageService_getProgram this in
    let this := set_program (Some (currentProgram r)) this in
    if match oldProgram with
       | None => true
       | Some oldProgram =>
           bool_decide (programId (currentProgram r) ≠ programId oldProgram)
           && negb (oldStructureIsReused r)
       end
    then set_projectStructureVersion (projectStructureVersion this + 1) this
    else this.

(** [scriptInfo] is what the registry's
    [getOrCreateScriptInfoForNormalizedPath(fileName, false)] returns and
    [newlyAttached] what [scriptInfo.attachToProject(this)] answers. *)
Definition getScriptInfoForNormalizedPath (scriptInfo : option ScriptInfo)
    (newlyAttached : bool) (this : Project) : option ScriptInfo * Project :=
  match scriptInfo with
  | Some info =>
      let this := call (ScriptInfo_attachToProject info) this in
      (scriptInfo, if newlyAttached then markAsDirty this else this)
  | None => (None, this)
  end.

(** The argument is [undefined] ([None]) or an options object, which is
    truthy whatever its properties. *)
Definition setCompilerOptions (compilerOptions : option CompilerOptions)
    (this : Project) : Project :=
  match compilerOptions with
  | Some compilerOptions =>
      let compilerOptions := <[allowNonTsExtensions := OptBoolean true]> compilerOptions in
      let this := set_compilerOptions (Some compilerOptions) this in
      let this := lsHost_setCompilationSettings (Some compilerOptions) this in
      markAsDirty this
  | None => this
  end.

(** [lastKnownVersion] is optional.  A number that is not an integer equals
    no version and behaves like any other version that does not match. *)
Definition getChangesSinceVersion (lastKnownVersion : option Z) (this : Project)
    : ProjectFiles * Project :=
  let info :=
    mkProjectInfo (projectName this) (projectStructureVersion this)
                  (bool_decide (projectKind this = Inferred)) in
  let unknownVersion :=
    let projectFileNames := getFileNames this in
    (mkProjectFiles info (Some projectFileNames) None,
     set_lastReported (Some (arrayToMap projectFileNames id))
                      (projectStructureVersion this) this) in
  match lastReportedFileNames this with
  | Some lastReportedFileNames =>
      if bool_decide (lastKnownVersion = Some (lastReportedVersion this)) then
        if bool_decide (projectStructureVersion this = lastReportedVersion this) then
          (mkProjectFiles info None None, this)
        else
          let currentFiles := arrayToMap (getFileNames this) id in
          let added :=
            filter (λ id, hasProperty currentFiles id
                          && negb (hasProperty lastReportedFileNames id))
                   (ownKeys currentFiles) in
          let removed :=
            filter (λ id, hasProperty lastReportedFileNames id
                          && negb (hasProperty currentFiles id))
                   (ownKeys lastReportedFileNames) in
          (mkProjectFiles info None (Some (mkProjectChanges added removed)),
           set_lastReported (Some currentFiles) (projectStructureVersion this) this)
      else unknownVersion
  | None => unknownVersion
  end.

End Project.

(** ** The [ConfiguredProject] class *)

(** Modelled from the spec: the part of the project service and of its host
    that the watch operations use (editorServices.ts and the host are not
    part of this file).  [watchFile] and [watchDirectory] register a watch
    and return a handle; the handle is the position of the registration in
    [watches], so every registration gets a handle of its own.  A callback
    is named by a number. *)
Abbreviation Callback := nat.

Inductive Watch : Type :=
  | WatchedFile (path : string) (callback : Callback)
  | WatchedDirectory (path : string) (callback : Callback) (recursive : bool).

Record ProjectService : Type := mkProjectService {
  useCaseSensitiveFileNames : bool;
  watches : list Watch;
  closedWatchers : list FileWatcher;
  logged : list string
}.

Definition log (message : string) (service : ProjectService) : ProjectService :=
  mkProjectService (useCaseSensitiveFileNames service) (watches service)
                   (closedWatchers service) (logged service ++ [message]).

Definition register (w : Watch) (service : ProjectService) : FileWatcher * ProjectService :=
  (length (watches service),
   mkProjectService (useCaseSensitiveFileNames service) (watches service ++ [w])
                    (closedWatchers service) (logged service)).

Definition host_watchFile (path : string) (callback : Callback)
    (service : ProjectService) : FileWatcher * ProjectService :=
  register (WatchedFile path callback) service.

Definition host_watchDirectory (path : string) (callback : Callback) (recursive : bool)
    (service : ProjectService) : FileWatcher * ProjectService :=
  register (WatchedDirectory path callback recursive) service.

Definition FileWatcher_close (w : FileWatcher) (service : ProjectService) : ProjectService :=
  mkProjectService (useCaseSensitiveFileNames service) (watches service)
                   (closedWatchers service ++ [w]) (logged service).

Inductive Comparison : Type := LessThan | EqualTo | GreaterThan.

Global Instance Comparison_eq_dec : EqDecision Comparison.
Proof. solve_decision. Defined.

(** Modelled from the spec: the enum [WatchDirectoryFlags] is declared in the
    compiler; its [Recursive] member is the lowest bit. *)
Definition WatchDirectoryFlags_Recursive : Z := 1.

Record ConfiguredProject : Type := mkConfiguredProject {
  (** the fields inherited from [Project] *)
  base : Project;
  configFileName : NormalizedPath;
  wildcardDirectories : option (Map Z);
  projectFileWatcher : option FileWatcher;
  directoryWatcher : option FileWatcher;
  directoriesWatchedForWildcards : option (Map FileWatcher);
  openRefCount : Z
}.

Definition set_projectFileWatcher (w : option FileWatcher) (c : ConfiguredProject)
    : ConfiguredProject :=
  mkConfiguredProject (base c) (configFileName c) (wildcardDirectories c) w
                      (directoryWatcher c) (directoriesWatchedForWildcards c) (openRefCount c).

Definition set_directoryWatcher (w : option FileWatcher) (c : ConfiguredProject)
    : ConfiguredProject :=
  mkConfiguredProject (base c) (configFileName c) (wildcardDirectories c)
                      (projectFileWatcher c) w (directoriesWatchedForWildcards c)
                      (openRefCount c).

Definition set_directoriesWatchedForWildcards (w : option (Map FileWatcher))
    (c : ConfiguredProject) : ConfiguredProject :=
  mkConfiguredProject (base c) (configFileName c) (wildcardDirectories c)
                      (projectFileWatcher c) (directoryWatcher c) w (openRefCount c).

Definition set_openRefCount (n : Z) (c : ConfiguredProject) : ConfiguredProject :=
  mkConfiguredProject (base c) (configFileName c) (wildcardDirectories c)
                      (projectFileWatcher c) (directoryWatcher c)
                      (directoriesWatchedForWildcards c) n.

Section ConfiguredProject.

Variable getDefaultCompilerOptions : CompilerOptions.

(** Path helpers of the compiler's core. *)
Variable getDirectoryPath : string → string.
Variable comparePaths : string → string → string → bool → Comparison.

Definition newConfiguredProject (configFileName : NormalizedPath)
    (hasExplicitListOfFiles : bool) (compilerOptions : option CompilerOptions)
    (wildcardDirectories : option (Map Z)) (languageServiceEnabled : bool)
    : ConfiguredProject :=
  mkConfiguredProject
    (newProject getDefaultCompilerOptions Configured configFileName
                hasExplicitListOfFiles languageServiceEnabled compilerOptions)
    configFileName wildcardDirectories None None None 0.

Definition ConfiguredProject_getProjectName (this : ConfiguredProject) : string :=
  configFileName this.

Definition watchConfigFile (callback : Callback)
    (this : ConfiguredProject) (service : ProjectService)
    : ConfiguredProject * ProjectService :=
  let '(watcher, service) := host_watchFile (configFileName this) callback service in
  (set_projectFileWatcher (Some watcher) this, service).

Definition watchConfigDirectory (callback : Callback)
    (this : ConfiguredProject) (service : ProjectService)
    : ConfiguredProject * ProjectService :=
  match directoryWatcher this with
  | Some _ => (this, service)
  | None =>
      let directoryToWatch := getDirectoryPath (configFileName this) in
      let service := log ("Add recursive watcher for: " +:+ directoryToWatch) service in
      let '(watcher, service) :=
        host_watchDirectory directoryToWatch callback true service in
      (set_directoryWatcher (Some watcher) this, service)
  end.

(** The body of the callback given to [reduceProperties]; the host is
    threaded through the fold next to the [watchers] object. *)
Definition watchWildcard (configDirectoryPath : string) (callback : Callback)
    (acc : Map FileWatcher * ProjectService) (flag : Z) (directory : string)
    : Map FileWatcher * ProjectService :=
  let '(watchers, service) := acc in
  if bool_decide
       (comparePaths configDirectoryPath directory "."
                     (negb (useCaseSensitiveFileNames service)) ≠ EqualTo)
  then
    let recursive :=
      bool_decide (Z.land flag WatchDirectoryFlags_Recursive ≠ 0) in
    let service :=
      log ("Add " +:+ (if recursive then "recursive " else EmptyString)
                  +:+ "watcher for: " +:+ directory) service in
    let '(watcher, service) :=
      host_watchDirectory directory callback recursive service in
    (assign watchers directory watcher, service)
  else (watchers, service).

Definition watchWildcards (callback : Callback)
    (this : ConfiguredProject) (service : ProjectService)
    : ConfiguredProject * ProjectService :=
  match wildcardDirectories this with
  | None => (this, service)
  | Some _ =>
      let configDirectoryPath := getDirectoryPath (configFileName this) in
      let '(watchers, service) :=
        reduceProperties (wildcardDirectories this)
                         (watchWildcard configDirectoryPath callback)
                         ([], service) in
      (set_directoriesWatchedForWildcards (Some watchers) this, service)
  end.

Definition stopWatchingDirectory (this : ConfiguredProject) (service : ProjectService)
    : ConfiguredProject * ProjectService :=
  match directoryWatcher this with
  | Some watcher =>
      (set_directoryWatcher None this, FileWatcher_close watcher service)
  | None => (this, service)
  end.

Definition addOpenRef (this : ConfiguredProject) : ConfiguredProject :=
  set_openRefCount (openRefCount this + 1) this.

Definition deleteOpenRef (this : ConfiguredProject) : Z * ConfiguredProject :=
  let this := set_openRefCount (openRefCount this - 1) this in
  (openRefCount this, this).

End ConfiguredProject.

(** ** Sequences of operations on a project *)

Inductive Operation : Type :=
  | OpAddRoot (info : ScriptInfo)
  | OpRemoveFile (info : ScriptInfo) (detachFromProject : bool)
  | OpMarkAsDirty
  | OpUpdateGraph (r : GetProgramResult)
  | OpSetCompilerOptions (compilerOptions : option CompilerOptions)
  | OpEnableLanguageService
  | OpDisableLanguageService
  | OpGetChangesSinceVersion (lastKnownVersion : option Z)
  | OpGetScriptInfoForNormalizedPath (scriptInfo : option ScriptInfo) (newlyAttached : bool).

Section Operations.

Variable getDefaultLibFilePath : CompilerOptions → option NormalizedPath.

Definition perform (op : Operation) (this : Project) : Project :=
  match op with
  | OpAddRoot info => addRoot info this
  | OpRemoveFile info detachFromProject => removeFile info detachFromProject this
  | OpMarkAsDirty => markAsDirty this
  | OpUpdateGraph r => updateGraph r this
  | OpSetCompilerOptions compilerOptions => setCompilerOptions compilerOptions this
  | OpEnableLanguageService => enableLanguageService this
  | OpDisableLanguageService => disableLanguageService this
  | OpGetChangesSinceVersion lastKnownVersion =>
      (getChangesSinceVersion getDefaultLibFilePath lastKnownVersion this).2
  | OpGetScriptInfoForNormalizedPath scriptInfo newlyAttached =>
      (getScriptInfoForNormalizedPath scriptInfo newlyAttached this).2
  end.

Definition run (ops : list Operation) (this : Project) : Project :=
  foldl (λ this op, perform op this) this ops.

(** Whether [updateGraph] bumps the structure version. *)
Definition structureChanged (r : GetProgramResult) (this : Project) : bool :=
  languageServiceEnabled this
  && match program this with
     | None => true
     | Some oldProgram =>
         bool_decide (programId (currentProgram r) ≠ programId oldProgram)
         && negb (oldStructureIsReused r)
     end.

End Operations.

(** The root files and their index agree. *)
Definition rootsConsistent (this : Project) : Prop :=
  dom (rootFilesMap this) = list_to_set (path <$> rootFiles this)
  ∧ NoDup (path <$> rootFiles this)
  ∧ ∀ info, info ∈ rootFiles this → rootFilesMap this !! path info = Some info.

(** The set of names of a list of files. *)
Definition fileSet (names : list string) : gset string := list_to_set names.

(** What [removeFile] leaves alone when the file is not a root: everything
    but the state version and the trace of calls. *)
Definition sameButStateVersion (this this' : Project) : Prop :=
  rootFiles this' = rootFiles this
  ∧ rootFilesMap this' = rootFilesMap this
  ∧ program this' = program this
  ∧ lsHost this' = lsHost this
  ∧ languageServiceEnabled this' = languageServiceEnabled this
  ∧ compilerOptions this' = compilerOptions this
  ∧ projectStructureVersion this' = projectStructureVersion this
  ∧ lastReportedFileNames this' = lastReportedFileNames this
  ∧ lastReportedVersion this' = lastReportedVersion this.

(** Whether an operation bumps the structure version. *)
Definition bumpsStructureVersion (op : Operation) (this : Project) : bool :=
  match op with
  | OpUpdateGraph r => structureChanged r this
  | _ => false
  end.

Section WildcardWatches.

Variable getDirectoryPath : string → string.
Variable comparePaths : string → string → string → bool → Comparison.

(** The wildcard directories that get a watch of their own: those that are
    not the directory of the configuration file. *)
Definition wildcardsToWatch (this : ConfiguredProject) (service : ProjectService)
    (directories : Map Z) : Map Z :=
  filter (λ kv, comparePaths (getDirectoryPath (configFileName this)) kv.1 "."
                             (negb (useCaseSensitiveFileNames service)) ≠ EqualTo)
         directories.

Definition wildcardWatch (callback : Callback) (kv : string * Z) : Watch :=
  WatchedDirectory kv.1 callback
                   (bool_decide (Z.land kv.2 WatchDirectoryFlags_Recursive ≠ 0)).

End WildcardWatches.

(** ** A sample project

    The scenario of a configured project with the roots [a.ts] and [b.ts],
    used to run the operations on concrete values. *)

Module Sample.

Definition noDefaultLib : CompilerOptions → option NormalizedPath := λ _, None.

Definition a_ts : ScriptInfo := mkScriptInfo "/proj/a.ts" "/proj/a.ts" true.
Definition b_ts : ScriptInfo := mkScriptInfo "/proj/b.ts" "/proj/b.ts" false.

Definition registry (name : NormalizedPath) : option ScriptInfo :=
  if decide (name = "/proj/a.ts") then Some a_ts
  else if decide (name = "/proj/b.ts") then Some b_ts
  else None.

Definition sourceFileOf (name : string) : SourceFile := mkSourceFile name name.

Definition program1 : Program :=
  mkProgram 1 [sourceFileOf "/proj/a.ts"; sourceFileOf "/proj/b.ts";
               sourceFileOf "/lib/lib.d.ts"].

Definition program2 : Program :=
  mkProgram 2 [sourceFileOf "/proj/a.ts"; sourceFileOf "/lib/lib.d.ts"].

(** Another program object with the files of [program2]. *)
Definition program3 : Program :=
  mkProgram 3 [sourceFileOf "/proj/a.ts"; sourceFileOf "/lib/lib.d.ts"].

Definition project0 : Project :=
  newProject ∅ Configured "/proj/tsconfig.json" false true None.

(** Both roots added and the first program computed. *)
Definition project1 : Project :=
  run noDefaultLib
      [OpAddRoot a_ts; OpAddRoot b_ts; OpUpdateGraph (mkGetProgramResult program1 false)]
      project0.

(** The first report, then [b.ts] removed and the program recomputed. *)
Definition project2 : Project :=
  run noDefaultLib
      [OpGetChangesSinceVersion None; OpRemoveFile b_ts true;
       OpUpdateGraph (mkGetProgramResult program2 false)]
      project1.

Definition host0 : ProjectService := mkProjectService true [] [] [].

Definition directoryOf (fileName : string) : string := "/proj".

Definition samePath (a b currentDirectory : string) (ignoreCase : bool) : Comparison :=
  if decide (a = b) then EqualTo else LessThan.

Definition configured0 : ConfiguredProject :=
  newConfiguredProject ∅ "/proj/tsconfig.json" false None
                       (Some [("/proj/src", 1); ("/proj", 0)]) true.

End Sample.

(** ** Further operations of [Project] and of its subclasses *)

Definition isUpdateGraph (op : Operation) : bool :=
  match op with
  | OpUpdateGraph _ => true
  | _ => false
  end.

(** The number of recomputations in a sequence of operations. *)
Definition countUpdateGraph (ops : list Operation) : Z :=
  Z.of_nat (length (filter (λ op, isUpdateGraph op) ops)).

(** Exactly one binding is active, and the live host holds the options of
    the project. *)
Definition bindingConsistent (this : Project) : Prop :=
  is_Some (compilerOptions this)
  ∧ if languageServiceEnabled this
    then lsHost this = LSHost (compilerOptions this)
         ∧ languageService this = createLanguageService
    else lsHost this = nullLanguageServiceHost
         ∧ languageService this = nullLanguageService.

(** The reported version trails the structure version. *)
Definition reportedVersionInv (this : Project) : Prop :=
  0 ≤ lastReportedVersion this ≤ projectStructureVersion this
  ∧ (lastReportedFileNames this = None → lastReportedVersion this = 0).

(** The stored options allow files that are not TypeScript files. *)
Definition allowsNonTsExtensions (this : Project) : Prop :=
  ∃ options, compilerOptions this = Some options
             ∧ options !! allowNonTsExtensions = Some (OptBoolean true).

(** The language service was never enabled and no program was computed. *)
Definition neverEnabled (this : Project) : Prop :=
  languageServiceEnabled this = false
  ∧ program this = None
  ∧ projectStructureVersion this = 0.

(** The baseline is an object: no key twice. *)
Definition baselineWellFormed (this : Project) : Prop :=
  ∀ last, lastReportedFileNames this = Some last → NoDup (ownKeys last).

Definition newline : string := String (Ascii.ascii_of_nat 10) EmptyString.

Definition filesToString (this : Project) : string :=
  match program this with
  | None => EmptyString
  | Some program =>
      foldl (λ strBuilder file, strBuilder +:+ (sourceFileName file +:+ newline))
            EmptyString (getSourceFiles program)
  end.

(** One file name per line. *)
Definition unlines (names : list string) : string :=
  foldr (λ name rest, name +:+ newline +:+ rest) EmptyString names.

(** Modelled from the spec: [forEachValue(map, callback)] is a helper of the
    compiler's core; it calls the callback on every value of the object in
    enumeration order, and on no value when the object is absent.  The
    callbacks here act on the host. *)
Definition forEachValue {T} (map : option (Map T))
    (callback : T → ProjectService → ProjectService)
    (service : ProjectService) : ProjectService :=
  match map with
  | Some map => foldl (λ service kv, callback kv.2 service) service map
  | None => service
  end.

Section Closing.

Variable getDefaultLibFilePath : CompilerOptions → option NormalizedPath.

(** [projectService.getScriptInfoForNormalizedPath]: the registry lookup. *)
Variable registry : NormalizedPath → option ScriptInfo.

(** The loop of [Project.close]: the script infos detached, in order, and
    whether the loop ran to its end.  When the registry does not know a file
    name, [info] is [undefined] and [info.detachFromProject(this)] throws:
    the files before it have been detached, the others have not. *)
Fixpoint detachFiles (fileNames : list NormalizedPath) : list ScriptInfo * bool :=
  match fileNames with
  | [] => ([], true)
  | fileName :: rest =>
      match registry fileName with
      | Some info =>
          let '(detached, finished) := detachFiles rest in
          (info :: detached, finished)
      | None => ([], false)
      end
  end.

(** [Project.close()] assigns no field of the project.  Its result here is
    the list of script infos it detached and whether it returned; it returns
    when the loop ran to its end and [languageService.dispose()], a call on
    the engine whose outcome [disposeReturns] is an input, returned. *)
Definition Project_close (disposeReturns : bool) (this : Project)
    : list ScriptInfo * bool :=
  let '(detached, finished) := detachFiles (getFileNames getDefaultLibFilePath this) in
  (detached, finished && disposeReturns).

(** [ConfiguredProject.close()]: nothing after [super.close()] runs when that
    call throws. *)
Definition ConfiguredProject_close (disposeReturns : bool)
    (this : ConfiguredProject) (service : ProjectService)
    : ConfiguredProject * ProjectService * (list ScriptInfo * bool) :=
  let '(detached, returned) := Project_close disposeReturns (base this) in
  if returned then
    let service :=
      match projectFileWatcher this with
      | Some watcher => FileWatcher_close watcher service
      | None => service
      end in
    let service :=
      forEachValue (directoriesWatchedForWildcards this) FileWatcher_close service in
    let this := set_directoriesWatchedForWildcards None this in
    let '(this, service) := stopWatchingDirectory this service in
    (this, service, (detached, true))
  else (this, service, (detached, false)).

End Closing.

(** ** The [InferredProject] and [ExternalProject] classes *)

Record InferredProject : Type := mkInferredProject {
  (** the fields inherited from [Project] *)
  inferredBase : Project;
  inferredProjectName : string;
  directoriesWatchedForTsconfig : list string
}.

Section OtherProjects.

Variable getDefaultCompilerOptions : CompilerOptions.

(** [makeInferredProjectName(counter)] is a helper of the server's
    utilities. *)
Variable makeInferredProjectName : Z → string.

(** The constructor of [InferredProject].  The static counter [NextId] is
    threaded: the constructor reads it for the name and leaves it
    incremented.  No file list and no options are passed to [super]. *)
Definition newInferredProject (NextId : Z) (languageServiceEnabled : bool)
    : InferredProject * Z :=
  let base :=
    newProject getDefaultCompilerOptions Inferred (makeInferredProjectName NextId)
               false languageServiceEnabled None in
  (mkInferredProject base (makeInferredProjectName NextId) [], NextId + 1).

(** Successive constructions, one for each element of the list. *)
Fixpoint newInferredProjects (NextId : Z) (languageServiceEnabled : list bool)
    : list InferredProject * Z :=
  match languageServiceEnabled with
  | [] => ([], NextId)
  | enabled :: rest =>
      let '(project, NextId) := newInferredProject NextId enabled in
      let '(projects, NextId) := newInferredProjects NextId rest in
      (project :: projects, NextId)
  end.

(** The constructor of [ExternalProject]: the file list is explicit. *)
Definition newExternalProject (externalProjectName : string)
    (compilerOptions : option CompilerOptions) (languageServiceEnabled : bool)
    : Project :=
  newProject getDefaultCompilerOptions External externalProjectName
             true languageServiceEnabled compilerOptions.

End OtherProjects.

(** ** A configured project through its life *)

Module Lifecycle.

(** The three registrations made when a configured project is created. *)
Definition watchAll (getDirectoryPath : string → string)
    (comparePaths : string → string → string → bool → Comparison)
    (callback : Callback) (this : ConfiguredProject) (service : ProjectService)
    : ConfiguredProject * ProjectService :=
  let '(this, service) := watchConfigFile callback this service in
  let '(this, service) := watchConfigDirectory getDirectoryPath callback this service in
  watchWildcards getDirectoryPath comparePaths callback this service.

(** A registry that knows the files of the sample programs. *)
Definition registry (name : NormalizedPath) : option ScriptInfo :=
  if decide (name = "/lib/lib.d.ts")
  then Some (mkScriptInfo "/lib/lib.d.ts" "/lib/lib.d.ts" false)
  else Sample.registry name.

(** The sample project as a configured project with its program computed. *)
Definition configured1 : ConfiguredProject :=
  mkConfiguredProject Sample.project1 "/proj/tsconfig.json"
                      (Some [("/proj/src", 1); ("/proj", 0); ("/proj/test", 0)])
                      None None None 0.

Definition inferredName (counter : Z) : string := pretty counter.

End Lifecycle.

(** * Properties *)

(** ** Objects as maps *)

Section JsMapFacts.
Context {T : Type}.
Implicit Types (map : Map T) (key : string) (value : T).

Lemma ownKeys_assign map key value k :
  k ∈ ownKeys (assign map key value) ↔ k = key ∨ k ∈ ownKeys map.
Proof.
  unfold ownKeys. induction map as [|[k0 v0] rest IH]; simpl.
  - rewrite list_elem_of_singleton. set_solver.
  - destruct (decide (k0 = key)) as [->|Hne]; simpl.
    + rewrite !elem_of_cons. tauto.
    + rewrite !elem_of_cons, IH. tauto.
Qed.

Lemma NoDup_assign map key value :
  NoDup (ownKeys map) → NoDup (ownKeys (assign map key value)).
Proof.
  induction map as [|[k0 v0] rest IH]; simpl; intros Hnd.
  - apply NoDup_singleton.
  - apply NoDup_cons in Hnd as [Hnotin Hnd].
    destruct (decide (k0 = key)) as [->|Hne]; simpl.
    + apply NoDup_cons; done.
    + apply NoDup_cons. split; [|by apply IH].
      intros [Heq|Hin]%ownKeys_assign; [done|]. by apply Hnotin.
Qed.

Lemma hasProperty_true map key : hasProperty map key = true ↔ key ∈ ownKeys map.
Proof. unfold hasProperty. apply bool_decide_eq_true. Qed.

Lemma hasProperty_false map key : hasProperty map key = false ↔ key ∉ ownKeys map.
Proof. unfold hasProperty. apply bool_decide_eq_false. Qed.

Lemma ownKeys_foldl_assign (makeKey : T → string) (array : list T) map k :
  k ∈ ownKeys (foldl (λ result value, assign result (makeKey value) value) map array)
  ↔ k ∈ ownKeys map ∨ k ∈ makeKey <$> array.
Proof.
  revert map. induction array as [|x array IH]; intros map; simpl.
  - set_solver.
  - rewrite IH, ownKeys_assign, elem_of_cons. tauto.
Qed.

Lemma NoDup_foldl_assign (makeKey : T → string) (array : list T) map :
  NoDup (ownKeys map) →
  NoDup (ownKeys (foldl (λ result value, assign result (makeKey value) value) map array)).
Proof.
  revert map. induction array as [|x array IH]; intros map Hnd; simpl; [done|].
  apply IH. by apply NoDup_assign.
Qed.

Lemma ownKeys_arrayToMap (makeKey : T → string) (array : list T) k :
  k ∈ ownKeys (arrayToMap array makeKey) ↔ k ∈ makeKey <$> array.
Proof.
  unfold arrayToMap. rewrite ownKeys_foldl_assign. unfold ownKeys. set_solver.
Qed.

Lemma NoDup_arrayToMap (makeKey : T → string) (array : list T) :
  NoDup (ownKeys (arrayToMap array makeKey)).
Proof. apply NoDup_foldl_assign. apply NoDup_nil_2. Qed.

End JsMapFacts.

Lemma ownKeys_arrayToMap_id (names : list string) k :
  k ∈ ownKeys (arrayToMap names id) ↔ k ∈ names.
Proof. rewrite ownKeys_arrayToMap. by rewrite list_fmap_id. Qed.

Lemma fileSet_arrayToMap (names : list string) :
  fileSet (ownKeys (arrayToMap names id)) = fileSet names.
Proof.
  unfold fileSet. apply set_eq. intros k.
  rewrite !elem_of_list_to_set. apply ownKeys_arrayToMap_id.
Qed.

(** The two loops of the diff: the keys of [from] that [other] lacks. *)
Lemma elem_of_difference_loop {T} (from other : Map T) (x : string) :
  x ∈ filter (λ id, hasProperty from id && negb (hasProperty other id)) (ownKeys from)
  ↔ x ∈ ownKeys from ∧ x ∉ ownKeys other.
Proof.
  rewrite list_elem_of_filter. unfold hasProperty.
  rewrite andb_True, negb_True, !bool_decide_spec. tauto.
Qed.

Lemma fileSet_difference_loop {T} (from other : Map T) :
  fileSet (filter (λ id, hasProperty from id && negb (hasProperty other id)) (ownKeys from))
  = fileSet (ownKeys from) ∖ fileSet (ownKeys other).
Proof.
  unfold fileSet. apply set_eq. intros x.
  rewrite elem_of_difference, !elem_of_list_to_set. apply elem_of_difference_loop.
Qed.

(** ** The diff protocol *)

Section DiffProtocol.

Variable getDefaultLibFilePath : CompilerOptions → option NormalizedPath.

(** C1.  When the project has no baseline yet, or the caller's
    [lastKnownVersion] is not the last reported version,
    [getChangesSinceVersion] answers with the full current file list and no
    [changes], and the new baseline is the map of that very list (its keys
    are exactly the names of the list) together with the current structure
    version; nothing else of the project changes. *)
Theorem getChangesSinceVersion_unknown_version
    (lastKnownVersion : option Z) (this : Project) :
  lastReportedFileNames this = None
  ∨ lastKnownVersion ≠ Some (lastReportedVersion this) →
  let result := getChangesSinceVersion getDefaultLibFilePath lastKnownVersion this in
  let current := getFileNames getDefaultLibFilePath this in
  files result.1 = Some current
  ∧ changes result.1 = None
  ∧ version (info result.1) = projectStructureVersion this
  ∧ lastReportedFileNames result.2 = Some (arrayToMap current id)
  ∧ fileSet (ownKeys (arrayToMap current id)) = fileSet current
  ∧ lastReportedVersion result.2 = projectStructureVersion this
  ∧ result.2 = set_lastReported (Some (arrayToMap current id))
                                (projectStructureVersion this) this.
Proof.
  intros Hunknown. unfold getChangesSinceVersion.
  destruct (lastReportedFileNames this) as [last|] eqn:Hlast.
  - destruct Hunknown as [?|Hne]; [done|].
    rewrite bool_decide_eq_false_2 by done. simpl.
    repeat split; apply fileSet_arrayToMap.
  - simpl. repeat split; apply fileSet_arrayToMap.
Qed.

(** C2.  With a baseline [last], a [lastKnownVersion] equal to the last
    reported version and a structure version that has moved on, the
    response carries [changes] and no [files]; as sets of names, [added] is
    the current files minus the baseline and [removed] is the baseline
    minus the current files, so a name in both is in neither list; the
    lists are a function of the two sets of names alone, whatever else
    differs between two projects (file contents are not looked at); the
    baseline becomes the map of the current files with the current structure
    version. *)
Theorem getChangesSinceVersion_diff
    (lastKnownVersion : option Z) (last : Map string) (this : Project) :
  lastReportedFileNames this = Some last →
  lastKnownVersion = Some (lastReportedVersion this) →
  projectStructureVersion this ≠ lastReportedVersion this →
  let result := getChangesSinceVersion getDefaultLibFilePath lastKnownVersion this in
  let current := getFileNames getDefaultLibFilePath this in
  ∃ diff,
    changes result.1 = Some diff
    ∧ files result.1 = None
    ∧ fileSet (added diff) = fileSet current ∖ fileSet (ownKeys last)
    ∧ fileSet (removed diff) = fileSet (ownKeys last) ∖ fileSet current
    ∧ (∀ name, name ∈ current → name ∈ ownKeys last →
               (name ∉ added diff) ∧ (name ∉ removed diff))
    ∧ (∀ other : Project,
         getFileNames getDefaultLibFilePath other = current →
         lastReportedFileNames other = Some last →
         lastReportedVersion other = lastReportedVersion this →
         projectStructureVersion other = projectStructureVersion this →
         changes (getChangesSinceVersion getDefaultLibFilePath lastKnownVersion other).1
         = Some diff)
    ∧ lastReportedFileNames result.2 = Some (arrayToMap current id)
    ∧ fileSet (ownKeys (arrayToMap current id)) = fileSet current
    ∧ lastReportedVersion result.2 = projectStructureVersion this.
Proof.
  intros Hlast Hknown Hmoved. unfold getChangesSinceVersion. rewrite Hlast.
  rewrite (bool_decide_eq_true_2 _ Hknown), (bool_decide_eq_false_2 _ Hmoved).
  simpl. eexists. split; [reflexivity|]. simpl.
  split; [done|].
  split; [by rewrite fileSet_difference_loop, fileSet_arrayToMap|].
  split; [by rewrite fileSet_difference_loop, fileSet_arrayToMap|].
  split.
  { intros name Hcur Hold. rewrite !elem_of_difference_loop.
    rewrite !ownKeys_arrayToMap_id. tauto. }
  split.
  { intros other Hnames Hlast' Hreported Hstructure.
    rewrite Hlast', Hreported, Hstructure, Hnames.
    by rewrite (bool_decide_eq_true_2 _ Hknown), (bool_decide_eq_false_2 _ Hmoved). }
  repeat split. apply fileSet_arrayToMap.
Qed.

(** C3.  Starting without a baseline, a first call followed at once by a
    call with the version the first one returned gives a response that is
    the project summary alone, neither [files] nor [changes], and that
    second call leaves the project as it was. *)
Theorem getChangesSinceVersion_round_trip
    (lastKnownVersion : option Z) (this : Project) :
  lastReportedFileNames this = None →
  let first := getChangesSinceVersion getDefaultLibFilePath lastKnownVersion this in
  let second :=
    getChangesSinceVersion getDefaultLibFilePath (Some (version (info first.1))) first.2 in
  files second.1 = None
  ∧ changes second.1 = None
  ∧ info second.1 = info first.1
  ∧ second.2 = first.2.
Proof.
  intros Hnone. unfold getChangesSinceVersion.
  rewrite Hnone. simpl.
  rewrite !bool_decide_eq_true_2 by done. done.
Qed.

End DiffProtocol.

(** ** Root files and their index *)

Lemma isRoot_true info this :
  isRoot info this = true ↔ path info ∈ dom (rootFilesMap this).
Proof. unfold isRoot. rewrite bool_decide_eq_true. by rewrite elem_of_dom. Qed.

Lemma isRoot_false info this :
  isRoot info this = false ↔ rootFilesMap this !! path info = None.
Proof. unfold isRoot. rewrite bool_decide_eq_false. by rewrite eq_None_not_Some. Qed.

Lemma isRoot_addRoot info this : isRoot info (addRoot info this) = true.
Proof.
  unfold addRoot. destruct (isRoot info this) eqn:Hroot; simpl; [done|].
  apply isRoot_true. simpl. rewrite dom_insert_L. set_solver.
Qed.

Lemma paths_copyListRemovingItem item l p :
  p ∈ path <$> copyListRemovingItem item l ↔ p ∈ path <$> l ∧ p ≠ path item.
Proof.
  unfold copyListRemovingItem. rewrite !list_elem_of_fmap. split.
  - intros (e & -> & [Hne He]%list_elem_of_filter). eauto.
  - intros [(e & -> & He) Hne]. exists e. split; [done|].
    apply list_elem_of_filter. done.
Qed.

Lemma rootsConsistent_addRoot info this :
  rootsConsistent this → rootsConsistent (addRoot info this).
Proof.
  intros (Hdom & Hnd & Hlook). unfold addRoot.
  destruct (isRoot info this) eqn:Hroot; simpl; [done|].
  apply isRoot_false in Hroot.
  assert (path info ∉ path <$> rootFiles this) as Hfresh.
  { apply not_elem_of_dom in Hroot. rewrite Hdom in Hroot.
    by rewrite elem_of_list_to_set in Hroot. }
  unfold rootsConsistent; simpl. split; [|split].
  - rewrite dom_insert_L, fmap_app, list_to_set_app_L, Hdom. simpl. set_solver.
  - rewrite fmap_app. apply NoDup_app. split; [done|]. split.
    + simpl. intros p Hp Heq%list_elem_of_singleton. by subst p.
    + apply NoDup_singleton.
  - intros e [He|Heq%list_elem_of_singleton]%elem_of_app; [|subst e].
    + rewrite lookup_insert_ne; [by apply Hlook|].
      intros Heq. apply Hfresh. rewrite Heq. by apply list_elem_of_fmap_2.
    + apply lookup_insert_eq.
Qed.

Lemma rootsConsistent_removeRoot info this :
  rootsConsistent this → rootsConsistent (removeRoot info this).2.
Proof.
  intros (Hdom & Hnd & Hlook). unfold removeRoot.
  destruct (isRoot info this) eqn:Hroot; simpl; [|done].
  assert (∀ c p, rootFiles (onLsHost c p) = rootFiles p
                 ∧ rootFilesMap (onLsHost c p) = rootFilesMap p) as Hon.
  { intros c p. unfold onLsHost. by destruct (lsHost p). }
  unfold rootsConsistent.
  destruct (Hon (LSHost_removeRoot info)
                (set_roots (copyListRemovingItem info (rootFiles this))
                           (delete (path info) (rootFilesMap this)) this)) as [-> ->].
  simpl. split; [|split].
  - rewrite dom_delete_L, Hdom. apply set_eq. intros p.
    rewrite elem_of_difference, !elem_of_list_to_set, paths_copyListRemovingItem.
    set_solver.
  - eapply sublist_NoDup; [exact Hnd|].
    apply fmap_sublist, sublist_filter.
  - intros e [Hne He]%list_elem_of_filter.
    rewrite lookup_delete_ne by done. by apply Hlook.
Qed.

Lemma rootsConsistent_same_roots this this' :
  rootFiles this' = rootFiles this → rootFilesMap this' = rootFilesMap this →
  rootsConsistent this → rootsConsistent this'.
Proof. unfold rootsConsistent. by intros -> ->. Qed.

Lemma roots_onLsHost c this :
  rootFiles (onLsHost c this) = rootFiles this
  ∧ rootFilesMap (onLsHost c this) = rootFilesMap this.
Proof. unfold onLsHost. by destruct (lsHost this). Qed.

Lemma rootsConsistent_removeFile info detachFromProject this :
  rootsConsistent this → rootsConsistent (removeFile info detachFromProject this).
Proof.
  intros Hcons. unfold removeFile.
  pose proof (rootsConsistent_removeRoot info this Hcons) as Hrem.
  destruct (removeRoot info this) as [removedRoot this1]. simpl in Hrem.
  eapply rootsConsistent_same_roots; [..|exact Hrem].
  - destruct removedRoot, detachFromProject; simpl; try done;
      unfold removeReferencedFile; apply roots_onLsHost.
  - destruct removedRoot, detachFromProject; simpl; try done;
      unfold removeReferencedFile; apply roots_onLsHost.
Qed.

Section Invariants.

Variable getDefaultLibFilePath : CompilerOptions → option NormalizedPath.
Variable getDefaultCompilerOptions : CompilerOptions.

Lemma rootsConsistent_perform op this :
  rootsConsistent this → rootsConsistent (perform getDefaultLibFilePath op this).
Proof.
  intros Hcons. destruct op; simpl.
  - by apply rootsConsistent_addRoot.
  - by apply rootsConsistent_removeFile.
  - done.
  - unfold updateGraph. repeat case_match; done.
  - unfold setCompilerOptions, lsHost_setCompilationSettings.
    repeat case_match; done.
  - done.
  - done.
  - unfold getChangesSinceVersion. repeat case_match; done.
  - unfold getScriptInfoForNormalizedPath. repeat case_match; done.
Qed.

Lemma rootsConsistent_newProject kind name hasExplicitListOfFiles enabled options :
  rootsConsistent
    (newProject getDefaultCompilerOptions kind name hasExplicitListOfFiles enabled options).
Proof.
  unfold newProject, rootsConsistent.
  destruct enabled; simpl; (split; [by rewrite dom_empty_L|]);
    (split; [apply NoDup_nil_2|]); by intros e ?%elem_of_nil.
Qed.

(** C7.  After any sequence of operations on a freshly constructed project
    (root additions and file removals among them), the keys of
    [rootFilesMap] are exactly the paths of the entries of [rootFiles], no
    path occurs twice in [rootFiles], and the index maps the path of every
    root to that root. *)
Theorem rootFilesMap_matches_rootFiles
    (kind : ProjectKind) (name : string) (hasExplicitListOfFiles enabled : bool)
    (options : option CompilerOptions) (ops : list Operation) :
  let this :=
    run getDefaultLibFilePath ops
        (newProject getDefaultCompilerOptions kind name
                    hasExplicitListOfFiles enabled options) in
  dom (rootFilesMap this) = list_to_set (path <$> rootFiles this)
  ∧ NoDup (path <$> rootFiles this)
  ∧ NoDup (rootFiles this)
  ∧ ∀ info, info ∈ rootFiles this → rootFilesMap this !! path info = Some info.
Proof.
  simpl.
  assert (rootsConsistent
            (run getDefaultLibFilePath ops
                 (newProject getDefaultCompilerOptions kind name
                             hasExplicitListOfFiles enabled options)))
    as (Hdom & Hnd & Hlook).
  { unfold run.
    generalize (rootsConsistent_newProject kind name hasExplicitListOfFiles enabled options).
    generalize (newProject getDefaultCompilerOptions kind name
                           hasExplicitListOfFiles enabled options).
    induction ops as [|op ops IH]; intros this Hcons; simpl; [done|].
    apply IH. by apply rootsConsistent_perform. }
  repeat split; try done.
  eapply NoDup_fmap_1. exact Hnd.
Qed.

End Invariants.

(** ** The two version counters *)

(** Case analysis on the bound host, for goals that compare fields. *)
Ltac host_cases this :=
  let Hhost := fresh "Hhost" in
  destruct (lsHost this) eqn:Hhost; simpl; rewrite ?Hhost; done.

Lemma projectStructureVersion_removeFile info detachFromProject this :
  projectStructureVersion (removeFile info detachFromProject this)
  = projectStructureVersion this.
Proof.
  unfold removeFile, removeRoot, removeReferencedFile, onLsHost.
  destruct (isRoot info this), detachFromProject; simpl; host_cases this.
Qed.


Section Versions.

Variable getDefaultLibFilePath : CompilerOptions → option NormalizedPath.


Lemma projectStructureVersion_perform op this :
  projectStructureVersion (perform getDefaultLibFilePath op this)
  = projectStructureVersion this + (if bumpsStructureVersion op this then 1 else 0).
Proof.
  destruct op as [file|file detach| |r|options| | |lastKnownVersion|scriptInfo newlyAttached];
    simpl; rewrite ?Z.add_0_r.
  - unfold addRoot. by destruct (isRoot file this).
  - apply projectStructureVersion_removeFile.
  - done.
  - unfold updateGraph, structureChanged.
    destruct (languageServiceEnabled this); simpl; [|by rewrite Z.add_0_r].
    destruct (program this) as [oldProgram|]; simpl; [|done].
    repeat case_match; simpl in *; try done; by rewrite Z.add_0_r.
  - unfold setCompilerOptions, lsHost_setCompilationSettings.
    repeat case_match; done.
  - done.
  - done.
  - unfold getChangesSinceVersion. repeat case_match; done.
  - unfold getScriptInfoForNormalizedPath. repeat case_match; done.
Qed.

(** C4 (amended).  Over any sequence of operations the structure version
    never decreases.  A single operation changes it only if it is an
    [updateGraph] made while the language service is enabled and either no
    program was computed before or the engine returns a program object other
    than the previous one and reports the previous structure as not reused;
    the version then grows by one.  Every other operation keeps it, and an
    [updateGraph] while the language service is disabled changes nothing at
    all. *)
Theorem projectStructureVersion_changes
    (ops : list Operation) (op : Operation) (r : GetProgramResult) (this : Project) :
  projectStructureVersion this
    ≤ projectStructureVersion (run getDefaultLibFilePath ops this)
  ∧ projectStructureVersion (perform getDefaultLibFilePath op this)
    = projectStructureVersion this + (if bumpsStructureVersion op this then 1 else 0)
  ∧ (bumpsStructureVersion op this = true →
     ∃ r', op = OpUpdateGraph r'
           ∧ languageServiceEnabled this = true
           ∧ (program this = None
              ∨ ∃ oldProgram, program this = Some oldProgram
                  ∧ programId (currentProgram r') ≠ programId oldProgram
                  ∧ oldStructureIsReused r' = false))
  ∧ (languageServiceEnabled this = false → updateGraph r this = this).
Proof.
  split; [|split; [|split]].
  - unfold run. revert this. induction ops as [|op' ops IH]; intros this; simpl; [lia|].
    etrans; [|apply IH]. rewrite projectStructureVersion_perform.
    destruct (bumpsStructureVersion op' this); lia.
  - apply projectStructureVersion_perform.
  - destruct op as [| | |r'| | | | |]; simpl; try done. unfold structureChanged.
    intros [Henabled Hbump]%andb_true_iff. exists r'. split; [done|]. split; [done|].
    destruct (program this) as [oldProgram|]; [right|by left].
    apply andb_true_iff in Hbump as [Hid Hreused].
    exists oldProgram. split; [done|]. split.
    + by apply bool_decide_eq_true in Hid.
    + by apply negb_true_iff in Hreused.
  - intros Hdisabled. unfold updateGraph. by rewrite Hdisabled.
Qed.

(** C5 (amended).  The state version grows by one on every [addRoot] of a
    file that is not yet a root, while an [addRoot] of a root changes
    nothing; it grows by one on every [removeFile] and on every
    [setCompilerOptions] that is given an options object.  A [removeFile] of
    a file that is not a root still bumps the state version and otherwise
    leaves the project as it was. *)
Theorem projectStateVersion_increases
    (info : ScriptInfo) (detachFromProject : bool) (options : CompilerOptions)
    (this : Project) :
  (isRoot info this = false →
   projectStateVersion (addRoot info this) = projectStateVersion this + 1)
  ∧ (isRoot info this = true → addRoot info this = this)
  ∧ projectStateVersion (removeFile info detachFromProject this)
    = projectStateVersion this + 1
  ∧ projectStateVersion (setCompilerOptions (Some options) this)
    = projectStateVersion this + 1
  ∧ (isRoot info this = false →
     sameButStateVersion this (removeFile info detachFromProject this)).
Proof.
  split; [|split; [|split; [|split]]].
  - intros Hroot. unfold addRoot. by rewrite Hroot.
  - intros Hroot. unfold addRoot. by rewrite Hroot.
  - unfold removeFile, removeRoot, removeReferencedFile, onLsHost.
    destruct (isRoot info this), detachFromProject; simpl; host_cases this.
  - unfold setCompilerOptions, lsHost_setCompilationSettings. simpl.
    by destruct (lsHost this).
  - intros Hroot. unfold removeFile, removeRoot, removeReferencedFile, onLsHost.
    rewrite Hroot. unfold sameButStateVersion.
    destruct detachFromProject; host_cases this.
Qed.

(** C6.  A second [addRoot] of the same file changes nothing: the project,
    and with it the list of roots, its length and order, the index, the
    state version and the trace of calls to collaborators, is the one left
    by the first call.  [addRoot] is a total function: neither call fails. *)
Theorem addRoot_idempotent (info : ScriptInfo) (this : Project) :
  addRoot info (addRoot info this) = addRoot info this
  ∧ rootFiles (addRoot info (addRoot info this)) = rootFiles (addRoot info this)
  ∧ length (rootFiles (addRoot info (addRoot info this)))
    = length (rootFiles (addRoot info this))
  ∧ projectStateVersion (addRoot info (addRoot info this))
    = projectStateVersion (addRoot info this).
Proof.
  assert (addRoot info (addRoot info this) = addRoot info this) as Heq.
  { unfold addRoot at 1. by rewrite isRoot_addRoot. }
  by rewrite Heq.
Qed.

(** C8 (amended).  [setCompilerOptions] without an options object changes
    nothing.  With an options object, whatever its properties and also when
    it has none, it sets [allowNonTsExtensions] on it, stores it, hands it to
    the bound host (the null host ignores it) and bumps the state version. *)
Theorem setCompilerOptions_spec (options : CompilerOptions) (this : Project) :
  setCompilerOptions None this = this
  ∧ let forced := <[allowNonTsExtensions := OptBoolean true]> options in
    let this' := setCompilerOptions (Some options) this in
    forced !! allowNonTsExtensions = Some (OptBoolean true)
    ∧ (∀ name, name ≠ allowNonTsExtensions → forced !! name = options !! name)
    ∧ compilerOptions this' = Some forced
    ∧ lsHost this' = match lsHost this with
                     | LSHost _ => LSHost (Some forced)
                     | nullLanguageServiceHost => nullLanguageServiceHost
                     end
    ∧ calls this' = match lsHost this with
                    | LSHost _ => calls this ++ [LSHost_setCompilationSettings (Some forced)]
                    | nullLanguageServiceHost => calls this
                    end
    ∧ projectStateVersion this' = projectStateVersion this + 1.
Proof.
  split; [done|]. simpl.
  split; [apply lookup_insert_eq|].
  split; [intros name Hne; by apply lookup_insert_ne|].
  unfold setCompilerOptions, lsHost_setCompilationSettings. simpl.
  host_cases this.
Qed.

End Versions.

(** ** Looking a file up in the project *)

Lemma getSourceFileByPath_is_Some (program : Program) (p : Path) :
  is_Some (getSourceFileByPath program p)
  ↔ ∃ sourceFile, sourceFile ∈ getSourceFiles program ∧ sourceFilePath sourceFile = p.
Proof.
  unfold getSourceFileByPath. split.
  - intros [sourceFile Hfind]. apply find_some in Hfind as [Hin Hpath].
    exists sourceFile. split; [by apply list_elem_of_In|].
    by apply bool_decide_eq_true in Hpath.
  - intros (sourceFile & Hin & Hpath).
    destruct (List.find _ (getSourceFiles program)) as [found|] eqn:Hfind; [by eexists|].
    exfalso. apply list_elem_of_In in Hin.
    apply (find_none _ _ Hfind) in Hin. simpl in Hin.
    by apply bool_decide_eq_false in Hin.
Qed.

(** C10 (amended).  [containsFile] answers [undefined] when the registry
    has no script info for the path, when [requireOpen] is true and the file
    is not open, and also as long as no program has been computed.  It
    answers a boolean only when the registry knows the file, the open
    requirement is met and a program exists; the boolean then tells whether
    that program has a source file with the path of the script info. *)
Theorem containsFile_spec
    (registry : NormalizedPath → option ScriptInfo)
    (filename : NormalizedPath) (requireOpen : option bool) (this : Project) :
  (registry filename = None → containsFile registry filename requireOpen this = None)
  ∧ (∀ info, registry filename = Some info → requireOpen = Some true →
             isOpen info = false →
             containsFile registry filename requireOpen this = None)
  ∧ (program this = None → containsFile registry filename requireOpen this = None)
  ∧ (∀ b, containsFile registry filename requireOpen this = Some b →
          ∃ info program',
            registry filename = Some info
            ∧ (requireOpen = Some true → isOpen info = true)
            ∧ program this = Some program'
            ∧ b = bool_decide (is_Some (getSourceFileByPath program' (path info)))
            ∧ (b = true ↔ ∃ sourceFile, sourceFile ∈ getSourceFiles program'
                                        ∧ sourceFilePath sourceFile = path info))
  ∧ (∀ info program',
       registry filename = Some info →
       (requireOpen = Some true → isOpen info = true) →
       program this = Some program' →
       containsFile registry filename requireOpen this
       = Some (bool_decide (is_Some (getSourceFileByPath program' (path info))))).
Proof.
  unfold containsFile, containsScriptInfo. repeat split.
  - by intros ->.
  - intros info -> -> ->. done.
  - intros ->. by repeat case_match.
  - intros b Hb. destruct (registry filename) as [info|]; [|done].
    destruct (program this) as [program'|]; [|by repeat case_match].
    exists info, program'. split; [done|].
    assert (b = bool_decide (is_Some (getSourceFileByPath program' (path info))))
      as Hvalue.
    { destruct requireOpen as [[]|], (isOpen info); simpl in *; congruence. }
    split; [|split; [done|split; [done|]]].
    + intros ->. simpl in Hb. by destruct (isOpen info).
    + rewrite Hvalue, bool_decide_eq_true. apply getSourceFileByPath_is_Some.
  - intros info program' -> Hopen ->.
    destruct requireOpen as [[]|]; simpl; try done.
    by rewrite Hopen.
Qed.

(** ** Watch registrations of a configured project *)

Lemma elem_of_assign {T} (map : Map T) (key : string) (value : T) (k : string) (v : T) :
  (k, v) ∈ assign map key value → (k, v) = (key, value) ∨ (k, v) ∈ map.
Proof.
  induction map as [|[k0 v0] rest IH]; simpl.
  - intros ?%list_elem_of_singleton. by left.
  - destruct (decide (k0 = key)) as [->|Hne].
    + intros [?|?]%elem_of_cons; [by left|]. right. by apply elem_of_cons; right.
    + intros [?|[?|?]%IH]%elem_of_cons.
      * right. by apply elem_of_cons; left.
      * by left.
      * right. by apply elem_of_cons; right.
Qed.

Section Watches.

Variable getDirectoryPath : string → string.
Variable comparePaths : string → string → string → bool → Comparison.


Lemma watchWildcard_step (callback : Callback) (this : ConfiguredProject)
    (watchers : Map FileWatcher) (service : ProjectService) (flag : Z) (directory : string) :
  let result :=
    watchWildcard comparePaths (getDirectoryPath (configFileName this)) callback
                  (watchers, service) flag directory in
  useCaseSensitiveFileNames result.2 = useCaseSensitiveFileNames service
  ∧ watches result.2
    = watches service
      ++ (wildcardWatch callback
            <$> wildcardsToWatch getDirectoryPath comparePaths this service
                                 [(directory, flag)])
  ∧ (∀ d w, (d, w) ∈ result.1 →
            (d, w) ∈ watchers
            ∨ (w = length (watches service)
               ∧ (length (watches service) < length (watches result.2))%nat)).
Proof.
  unfold watchWildcard, wildcardsToWatch. rewrite filter_cons, filter_nil. simpl.
  destruct (decide (comparePaths _ directory "." _ ≠ EqualTo)) as [Hdiff|Hsame].
  - rewrite bool_decide_eq_true_2 by done. simpl. repeat split.
    intros d w [Heq|Hin]%elem_of_assign; [right|by left].
    injection Heq as -> ->. rewrite length_app. simpl. split; [done|lia].
  - rewrite bool_decide_eq_false_2 by done. simpl. rewrite app_nil_r.
    repeat split. intros d w Hin. by left.
Qed.

Lemma watchWildcard_fold (callback : Callback) (this : ConfiguredProject)
    (directories : Map Z) (watchers : Map FileWatcher) (service : ProjectService)
    (first : nat) :
  (first ≤ length (watches service))%nat →
  (∀ d w, (d, w) ∈ watchers → (first ≤ w < length (watches service))%nat) →
  let result :=
    foldl (λ acc kv,
             watchWildcard comparePaths (getDirectoryPath (configFileName this))
                           callback acc kv.2 kv.1)
          (watchers, service) directories in
  watches result.2
  = watches service
    ++ (wildcardWatch callback
          <$> wildcardsToWatch getDirectoryPath comparePaths this service directories)
  ∧ (∀ d w, (d, w) ∈ result.1 → (first ≤ w < length (watches result.2))%nat).
Proof.
  revert watchers service.
  induction directories as [|[directory flag] rest IH]; intros watchers service Hfirst Hfresh.
  - simpl. rewrite app_nil_r. done.
  - cbn [foldl fst snd].
    pose proof (watchWildcard_step callback this watchers service flag directory)
      as (Hcase & Hwatches & Hhandles).
    destruct (watchWildcard comparePaths (getDirectoryPath (configFileName this))
                            callback (watchers, service) flag directory)
      as [watchers1 service1].
    cbn [fst snd] in Hcase, Hwatches, Hhandles.
    assert (length (watches service) ≤ length (watches service1))%nat as Hgrow.
    { rewrite Hwatches, length_app. lia. }
    specialize (IH watchers1 service1). destruct IH as [IHw IHh].
    { lia. }
    { intros d w [Hin|[-> Hlt]]%Hhandles; [apply Hfresh in Hin|]; lia. }
    split; [|exact IHh].
    rewrite IHw, Hwatches, <- app_assoc, <- fmap_app. f_equal. f_equal.
    unfold wildcardsToWatch. rewrite Hcase.
    by rewrite (filter_cons _ (directory, flag) rest), filter_cons, filter_nil;
      destruct (decide _).
Qed.

(** C9 (amended).  Of the three watch registrations only
    [watchConfigDirectory] is guarded: a repeated call, with whatever
    callback, registers nothing and leaves the project and the host as the
    first call left them, and it registers again once
    [stopWatchingDirectory] has cleared the handle.  [watchConfigFile]
    registers one more file watch on the configuration file at every call
    and stores the new handle.
    [watchWildcards] does nothing when the project has no wildcard
    directories; otherwise every call registers one directory watch for each
    wildcard directory that is not the directory of the configuration file
    and stores a map whose handles all come from that call. *)
Theorem watch_registrations
    (callback callback' : Callback) (this : ConfiguredProject) (service : ProjectService) :
  (let once := watchConfigDirectory getDirectoryPath callback this service in
   watchConfigDirectory getDirectoryPath callback' once.1 once.2 = once)
  ∧ (let once := watchConfigDirectory getDirectoryPath callback this service in
     let stopped := stopWatchingDirectory once.1 once.2 in
     let again := watchConfigDirectory getDirectoryPath callback' stopped.1 stopped.2 in
     watches again.2
     = watches once.2
       ++ [WatchedDirectory (getDirectoryPath (configFileName this)) callback' true])
  ∧ (let once := watchConfigFile callback this service in
     watches once.2 = watches service ++ [WatchedFile (configFileName this) callback]
     ∧ projectFileWatcher once.1 = Some (length (watches service)))
  ∧ (wildcardDirectories this = None →
     watchWildcards getDirectoryPath comparePaths callback this service = (this, service))
  ∧ (∀ directories, wildcardDirectories this = Some directories →
       let once := watchWildcards getDirectoryPath comparePaths callback this service in
       watches once.2
       = watches service
         ++ (wildcardWatch callback
               <$> wildcardsToWatch getDirectoryPath comparePaths this service directories)
       ∧ ∃ watchers,
           directoriesWatchedForWildcards once.1 = Some watchers
           ∧ ∀ d w, (d, w) ∈ watchers →
                    (length (watches service) ≤ w < length (watches once.2))%nat).
Proof.
  split; [|split; [|split; [|split]]].
  - unfold watchConfigDirectory.
    destruct (directoryWatcher this) as [watcher|] eqn:Hwatcher; simpl.
    + by rewrite Hwatcher.
    + done.
  - unfold watchConfigDirectory, stopWatchingDirectory.
    destruct (directoryWatcher this) as [watcher|] eqn:Hwatcher; simpl.
    + by rewrite Hwatcher.
    + done.
  - done.
  - intros Hnone. unfold watchWildcards. by rewrite Hnone.
  - intros directories Hsome. unfold watchWildcards. rewrite Hsome.
    unfold reduceProperties.
    pose proof (watchWildcard_fold callback this directories [] service
                                   (length (watches service))) as Hfold.
    simpl in Hfold. destruct Hfold as [Hwatches Hhandles]; [lia| |].
    { by intros d w ?%elem_of_nil. }
    destruct (foldl _ _ directories) as [watchers service1]. simpl in *.
    split; [done|]. by exists watchers.
Qed.

End Watches.

(** * The operations on the sample project *)

(** ** Where the code departs from the stated properties *)

(** C4, as stated, fails.  [Sample.project2] holds [Sample.program2]; the
    engine then returns another program object with the very same files and
    reports the old structure as not reused.  The file set is what it was,
    and the structure version still moves from 2 to 3. *)
Lemma projectStructureVersion_changes_with_same_files :
  let this := Sample.project2 in
  let this' := updateGraph (mkGetProgramResult Sample.program3 false) this in
  program this = Some Sample.program2
  ∧ getFileNames Sample.noDefaultLib this' = getFileNames Sample.noDefaultLib this
  ∧ fileSet (getFileNames Sample.noDefaultLib this')
    = fileSet (getFileNames Sample.noDefaultLib this)
  ∧ projectStructureVersion this = 2
  ∧ projectStructureVersion this' = 3
  ∧ projectStructureVersion this' ≠ projectStructureVersion this.
Proof. vm_compute. repeat split. discriminate. Qed.

(** C5, as stated, fails.  [a.ts] is a root of [Sample.project1]; adding it
    again is a call of [addRoot] after which the state version is not
    greater than before. *)
Lemma addRoot_of_a_root_keeps_projectStateVersion :
  let this := Sample.project1 in
  isRoot Sample.a_ts this = true
  ∧ projectStateVersion this = 3
  ∧ projectStateVersion (addRoot Sample.a_ts this) = 3
  ∧ ¬ (projectStateVersion this < projectStateVersion (addRoot Sample.a_ts this)).
Proof. vm_compute. repeat split. discriminate. Qed.

(** C8, as stated, fails.  An options object without any property is not
    ignored: it is stored with [allowNonTsExtensions] set, it reaches the
    host, and the state version moves from 3 to 4. *)
Lemma setCompilerOptions_of_empty_options :
  let this := Sample.project1 in
  let this' := setCompilerOptions (Some ∅) this in
  compilerOptions this' = Some {[allowNonTsExtensions := OptBoolean true]}
  ∧ compilerOptions this' ≠ compilerOptions this
  ∧ lsHost this' = LSHost (Some {[allowNonTsExtensions := OptBoolean true]})
  ∧ lsHost this' ≠ lsHost this
  ∧ projectStateVersion this = 3
  ∧ projectStateVersion this' = 4.
Proof. vm_compute. repeat split; discriminate. Qed.

(** C9, as stated, fails.  A second [watchConfigFile] registers a second
    watch on the configuration file and replaces the stored handle; a second
    [watchWildcards] registers a second watch on [/proj/src] and replaces the
    stored handle of that directory. *)
Lemma watchConfigFile_and_watchWildcards_register_again :
  let once := watchConfigFile 7%nat Sample.configured0 Sample.host0 in
  let twice := watchConfigFile 7%nat once.1 once.2 in
  let wild := watchWildcards Sample.directoryOf Sample.samePath 7%nat
                             Sample.configured0 Sample.host0 in
  let wild' := watchWildcards Sample.directoryOf Sample.samePath 7%nat wild.1 wild.2 in
  watches once.2 = [WatchedFile "/proj/tsconfig.json" 7%nat]
  ∧ watches twice.2
    = [WatchedFile "/proj/tsconfig.json" 7%nat; WatchedFile "/proj/tsconfig.json" 7%nat]
  ∧ projectFileWatcher once.1 = Some 0%nat
  ∧ projectFileWatcher twice.1 = Some 1%nat
  ∧ watches wild.2 = [WatchedDirectory "/proj/src" 7%nat true]
  ∧ watches wild'.2
    = [WatchedDirectory "/proj/src" 7%nat true; WatchedDirectory "/proj/src" 7%nat true]
  ∧ directoriesWatchedForWildcards wild.1 = Some [("/proj/src", 0%nat)]
  ∧ directoriesWatchedForWildcards wild'.1 = Some [("/proj/src", 1%nat)].
Proof. vm_compute. repeat split. Qed.

(** C10, as stated, fails.  The registry knows [/proj/a.ts] and the file is
    open, so the open requirement is met; the project has not computed a
    program yet, and [containsFile] answers [undefined], not a boolean. *)
Lemma containsFile_before_the_first_program :
  let this := addRoot Sample.a_ts Sample.project0 in
  Sample.registry "/proj/a.ts" = Some Sample.a_ts
  ∧ isOpen Sample.a_ts = true
  ∧ program this = None
  ∧ containsFile Sample.registry "/proj/a.ts" (Some true) this = None
  ∧ containsFile Sample.registry "/proj/a.ts" None this = None.
Proof. vm_compute. repeat split. Qed.

(** ** The theorems at work on the sample project *)

(** Version 999 was never reported by [Sample.project2]: a full list. *)
Lemma getChangesSinceVersion_unknown_version_witness :
  (lastReportedFileNames Sample.project2 = None
   ∨ Some 999 ≠ Some (lastReportedVersion Sample.project2))
  ∧ files (getChangesSinceVersion Sample.noDefaultLib (Some 999) Sample.project2).1
    = Some ["/proj/a.ts"; "/lib/lib.d.ts"]
  ∧ changes (getChangesSinceVersion Sample.noDefaultLib (Some 999) Sample.project2).1
    = None.
Proof.
  assert (lastReportedFileNames Sample.project2 = None
          ∨ Some 999 ≠ Some (lastReportedVersion Sample.project2)) as Hunknown.
  { right. vm_compute. discriminate. }
  split; [exact Hunknown|].
  destruct (getChangesSinceVersion_unknown_version
              Sample.noDefaultLib (Some 999) Sample.project2 Hunknown)
    as (Hfiles & Hchanges & _).
  split; [exact Hfiles|exact Hchanges].
Defined.

(** [b.ts] was removed after version 1 was reported. *)
Lemma getChangesSinceVersion_diff_witness :
  ∃ diff,
    changes (getChangesSinceVersion Sample.noDefaultLib (Some 1) Sample.project2).1
    = Some diff
    ∧ fileSet (added diff)
      = fileSet ["/proj/a.ts"; "/lib/lib.d.ts"]
        ∖ fileSet ["/proj/a.ts"; "/proj/b.ts"; "/lib/lib.d.ts"]
    ∧ fileSet (removed diff)
      = fileSet ["/proj/a.ts"; "/proj/b.ts"; "/lib/lib.d.ts"]
        ∖ fileSet ["/proj/a.ts"; "/lib/lib.d.ts"].
Proof.
  destruct (getChangesSinceVersion_diff
              Sample.noDefaultLib (Some 1)
              [("/proj/a.ts", "/proj/a.ts"); ("/proj/b.ts", "/proj/b.ts");
               ("/lib/lib.d.ts", "/lib/lib.d.ts")]
              Sample.project2)
    as (diff & Hchanges & _ & Hadded & Hremoved & _).
  - reflexivity.
  - reflexivity.
  - vm_compute. discriminate.
  - exists diff. split; [exact Hchanges|]. split; [exact Hadded|exact Hremoved].
Defined.

(** [Sample.project1] has not reported anything yet. *)
Lemma getChangesSinceVersion_round_trip_witness :
  lastReportedFileNames Sample.project1 = None
  ∧ let first := getChangesSinceVersion Sample.noDefaultLib None Sample.project1 in
    let second :=
      getChangesSinceVersion Sample.noDefaultLib (Some (version (info first.1))) first.2 in
    files first.1 = Some ["/proj/a.ts"; "/proj/b.ts"; "/lib/lib.d.ts"]
    ∧ files second.1 = None
    ∧ changes second.1 = None.
Proof.
  split; [reflexivity|].
  destruct (getChangesSinceVersion_round_trip Sample.noDefaultLib None Sample.project1)
    as (Hfiles & Hchanges & _).
  - reflexivity.
  - split; [reflexivity|]. split; [exact Hfiles|exact Hchanges].
Defined.

(** The recomputation that replaces [Sample.program2] by [Sample.program3]
    bumps the version; with the language service disabled it does nothing. *)
Lemma projectStructureVersion_changes_witness :
  let r := mkGetProgramResult Sample.program3 false in
  let disabled := disableLanguageService Sample.project2 in
  bumpsStructureVersion (OpUpdateGraph r) Sample.project2 = true
  ∧ languageServiceEnabled disabled = false
  ∧ projectStructureVersion (updateGraph r Sample.project2)
    = projectStructureVersion Sample.project2 + 1
  ∧ (∃ r', OpUpdateGraph r = OpUpdateGraph r'
           ∧ languageServiceEnabled Sample.project2 = true
           ∧ (program Sample.project2 = None
              ∨ ∃ oldProgram, program Sample.project2 = Some oldProgram
                  ∧ programId (currentProgram r') ≠ programId oldProgram
                  ∧ oldStructureIsReused r' = false))
  ∧ updateGraph r disabled = disabled.
Proof.
  intros r disabled.
  assert (bumpsStructureVersion (OpUpdateGraph r) Sample.project2 = true) as Hbump
    by reflexivity.
  assert (languageServiceEnabled disabled = false) as Hdisabled by reflexivity.
  split; [exact Hbump|]. split; [exact Hdisabled|].
  destruct (projectStructureVersion_changes
              Sample.noDefaultLib [] (OpUpdateGraph r) r Sample.project2)
    as (_ & Hstep & Hwhy & _).
  destruct (projectStructureVersion_changes
              Sample.noDefaultLib [] (OpUpdateGraph r) r disabled)
    as (_ & _ & _ & Hnoop).
  split; [exact Hstep|]. split; [exact (Hwhy Hbump)|exact (Hnoop Hdisabled)].
Defined.

(** [b.ts] is no longer a root of [Sample.project2]. *)
Lemma projectStateVersion_increases_witness :
  isRoot Sample.b_ts Sample.project2 = false
  ∧ projectStateVersion (addRoot Sample.b_ts Sample.project2)
    = projectStateVersion Sample.project2 + 1
  ∧ projectStateVersion (removeFile Sample.b_ts true Sample.project2)
    = projectStateVersion Sample.project2 + 1
  ∧ sameButStateVersion Sample.project2 (removeFile Sample.b_ts true Sample.project2).
Proof.
  assert (isRoot Sample.b_ts Sample.project2 = false) as Hroot by reflexivity.
  split; [exact Hroot|].
  destruct (projectStateVersion_increases Sample.b_ts true ∅ Sample.project2)
    as (Hadd & _ & Hremove & _ & Hsame).
  split; [exact (Hadd Hroot)|]. split; [exact Hremove|exact (Hsame Hroot)].
Defined.

(** After adding [a.ts] and [b.ts] and removing [b.ts] again. *)
Lemma rootFilesMap_matches_rootFiles_witness :
  let ops := [OpAddRoot Sample.a_ts; OpAddRoot Sample.b_ts; OpRemoveFile Sample.b_ts true] in
  let this := run Sample.noDefaultLib ops Sample.project0 in
  Sample.a_ts ∈ rootFiles this
  ∧ rootFilesMap this !! path Sample.a_ts = Some Sample.a_ts
  ∧ dom (rootFilesMap this) = list_to_set (path <$> rootFiles this).
Proof.
  intros ops this.
  assert (Sample.a_ts ∈ rootFiles this) as Hin by (vm_compute; constructor).
  split; [exact Hin|].
  destruct (rootFilesMap_matches_rootFiles
              Sample.noDefaultLib ∅ Configured "/proj/tsconfig.json" false true None ops)
    as (Hdom & _ & _ & Hlookup).
  split; [exact (Hlookup Sample.a_ts Hin)|exact Hdom].
Defined.

(** Options that only set [allowJs]. *)
Lemma setCompilerOptions_spec_witness :
  let options : CompilerOptions := {[allowJs := OptBoolean false]} in
  let forced := <[allowNonTsExtensions := OptBoolean true]> options in
  allowJs ≠ allowNonTsExtensions
  ∧ forced !! allowJs = options !! allowJs
  ∧ compilerOptions (setCompilerOptions (Some options) Sample.project1) = Some forced
  ∧ setCompilerOptions None Sample.project1 = Sample.project1.
Proof.
  intros options forced.
  assert (allowJs ≠ allowNonTsExtensions) as Hne by (vm_compute; discriminate).
  split; [exact Hne|].
  destruct (setCompilerOptions_spec options Sample.project1)
    as (Hnone & _ & Hother & Hstored & _).
  split; [exact (Hother allowJs Hne)|]. split; [exact Hstored|exact Hnone].
Defined.

(** A configured project with wildcard directories, and one without. *)
Lemma watch_registrations_witness :
  let plain := newConfiguredProject ∅ "/proj/tsconfig.json" true None None true in
  wildcardDirectories plain = None
  ∧ wildcardDirectories Sample.configured0 = Some [("/proj/src", 1); ("/proj", 0)]
  ∧ watchWildcards Sample.directoryOf Sample.samePath 7%nat plain Sample.host0
    = (plain, Sample.host0)
  ∧ watches (watchWildcards Sample.directoryOf Sample.samePath 7%nat
                            Sample.configured0 Sample.host0).2
    = watches Sample.host0
      ++ (wildcardWatch 7%nat
            <$> wildcardsToWatch Sample.directoryOf Sample.samePath Sample.configured0
                                 Sample.host0 [("/proj/src", 1); ("/proj", 0)]).
Proof.
  intros plain.
  assert (wildcardDirectories plain = None) as Hnone by reflexivity.
  assert (wildcardDirectories Sample.configured0 = Some [("/proj/src", 1); ("/proj", 0)])
    as Hsome by reflexivity.
  split; [exact Hnone|]. split; [exact Hsome|].
  destruct (watch_registrations Sample.directoryOf Sample.samePath
                                7%nat 7%nat plain Sample.host0)
    as (_ & _ & _ & Hnothing & _).
  destruct (watch_registrations Sample.directoryOf Sample.samePath
                                7%nat 7%nat Sample.configured0 Sample.host0)
    as (_ & _ & _ & _ & Hwild).
  split; [exact (Hnothing Hnone)|].
  destruct (Hwild _ Hsome) as [Hwatches _]. exact Hwatches.
Defined.

(** [b.ts] is known but closed, [c.ts] is unknown, [a.ts] is open and part
    of the program of [Sample.project1]. *)
Lemma containsFile_spec_witness :
  Sample.registry "/proj/c.ts" = None
  ∧ containsFile Sample.registry "/proj/c.ts" None Sample.project1 = None
  ∧ Sample.registry "/proj/b.ts" = Some Sample.b_ts
  ∧ isOpen Sample.b_ts = false
  ∧ containsFile Sample.registry "/proj/b.ts" (Some true) Sample.project1 = None
  ∧ program Sample.project0 = None
  ∧ containsFile Sample.registry "/proj/a.ts" None Sample.project0 = None
  ∧ containsFile Sample.registry "/proj/a.ts" (Some true) Sample.project1
    = Some (bool_decide
              (is_Some (getSourceFileByPath Sample.program1 (path Sample.a_ts)))).
Proof.
  assert (Sample.registry "/proj/c.ts" = None) as Hunknown by reflexivity.
  assert (Sample.registry "/proj/b.ts" = Some Sample.b_ts) as Hknown by reflexivity.
  assert (isOpen Sample.b_ts = false) as Hclosed by reflexivity.
  assert (program Sample.project0 = None) as Hnone by reflexivity.
  destruct (containsFile_spec Sample.registry "/proj/c.ts" None Sample.project1)
    as (H1 & _).
  destruct (containsFile_spec Sample.registry "/proj/b.ts" (Some true) Sample.project1)
    as (_ & H2 & _).
  destruct (containsFile_spec Sample.registry "/proj/a.ts" None Sample.project0)
    as (_ & _ & H3 & _).
  destruct (containsFile_spec Sample.registry "/proj/a.ts" (Some true) Sample.project1)
    as (_ & _ & _ & _ & H5).
  split; [exact Hunknown|]. split; [exact (H1 Hunknown)|].
  split; [exact Hknown|]. split; [exact Hclosed|].
  split; [exact (H2 _ Hknown eq_refl Hclosed)|].
  split; [exact Hnone|]. split; [exact (H3 Hnone)|].
  apply (H5 Sample.a_ts Sample.program1); reflexivity.
Defined.

(** * Further properties of the code *)

(** ** Invariants of a project over its operations *)

Lemma run_cons lib op ops this :
  run lib (op :: ops) this = run lib ops (perform lib op this).
Proof. done. Qed.

(** An invariant of the constructor and of every operation holds after any
    sequence of operations. *)
Lemma run_invariant lib (P : Project → Prop) ops this :
  (∀ op p, P p → P (perform lib op p)) → P this → P (run lib ops this).
Proof.
  intros Hstep. revert this.
  induction ops as [|op ops IH]; intros this Hthis; [done|].
  rewrite run_cons. apply IH. by apply Hstep.
Qed.

Lemma projectStateVersion_perform lib op this :
  projectStateVersion this ≤ projectStateVersion (perform lib op this)
  ≤ projectStateVersion this + 1.
Proof.
  destruct op as [file|file detach| |r|options| | |lastKnownVersion|scriptInfo newlyAttached];
    simpl.
  - unfold addRoot. destruct (isRoot file this); simpl; lia.
  - assert (projectStateVersion (removeFile file detach this)
            = projectStateVersion this + 1) as ->; [|lia].
    unfold removeFile, removeRoot, removeReferencedFile, onLsHost.
    destruct (isRoot file this), detach; simpl; host_cases this.
  - lia.
  - unfold updateGraph. repeat case_match; simpl; lia.
  - unfold setCompilerOptions, lsHost_setCompilationSettings.
    repeat case_match; simpl; lia.
  - lia.
  - lia.
  - unfold getChangesSinceVersion. repeat case_match; simpl; lia.
  - unfold getScriptInfoForNormalizedPath. repeat case_match; simpl; lia.
Qed.

Lemma countUpdateGraph_cons op ops :
  countUpdateGraph (op :: ops)
  = (if isUpdateGraph op then 1 else 0) + countUpdateGraph ops.
Proof.
  unfold countUpdateGraph. rewrite filter_cons.
  destruct (isUpdateGraph op); case_decide; simpl in *; try done.
  simpl length. lia.
Qed.

Lemma projectStructureVersion_run_le lib ops this :
  projectStructureVersion (run lib ops this)
  ≤ projectStructureVersion this + countUpdateGraph ops.
Proof.
  revert this. induction ops as [|op ops IH]; intros this.
  - unfold run, countUpdateGraph. simpl. lia.
  - rewrite run_cons, countUpdateGraph_cons. etrans; [apply IH|].
    rewrite projectStructureVersion_perform.
    destruct op; simpl; try lia. destruct (structureChanged r this); lia.
Qed.

Lemma reportedVersionInv_perform lib op this :
  reportedVersionInv this → reportedVersionInv (perform lib op this).
Proof.
  unfold reportedVersionInv. intros [Hle Hnone].
  destruct op as [file|file detach| |r|options| | |lastKnownVersion|scriptInfo newlyAttached];
    simpl.
  - unfold addRoot. by destruct (isRoot file this).
  - unfold removeFile, removeRoot, removeReferencedFile, onLsHost.
    destruct (isRoot file this), detach; simpl; host_cases this.
  - done.
  - unfold updateGraph. repeat case_match; simpl; split; try done; lia.
  - unfold setCompilerOptions, lsHost_setCompilationSettings.
    repeat case_match; done.
  - done.
  - done.
  - unfold getChangesSinceVersion.
    repeat case_match; simpl; split; try done; try (intros; congruence); lia.
  - unfold getScriptInfoForNormalizedPath. repeat case_match; done.
Qed.

(** [getChangesSinceVersion] writes the baseline and nothing else. *)
Lemma getChangesSinceVersion_baseline_only lib lastKnownVersion this :
  ∃ names reported,
    (getChangesSinceVersion lib lastKnownVersion this).2
    = set_lastReported names reported this.
Proof.
  unfold getChangesSinceVersion.
  destruct (lastReportedFileNames this) as [last|] eqn:Hlast; [|by eauto].
  destruct (bool_decide (lastKnownVersion = Some (lastReportedVersion this)));
    [|by eauto].
  destruct (bool_decide (projectStructureVersion this = lastReportedVersion this));
    [|by eauto].
  exists (Some last), (lastReportedVersion this). simpl.
  destruct this; simpl in *. by rewrite Hlast.
Qed.

(** [getScriptInfoForNormalizedPath] at most records the call and marks the
    project dirty. *)
Lemma getScriptInfoForNormalizedPath_dirty_only scriptInfo newlyAttached this :
  ∃ trace stateVersion,
    (getScriptInfoForNormalizedPath scriptInfo newlyAttached this).2
    = set_projectStateVersion stateVersion
        (mkProject (projectKind this) (projectName this) (rootFiles this)
                   (rootFilesMap this) (lsHost this) (program this)
                   (languageService this) (lastReportedFileNames this)
                   (lastReportedVersion this) (projectStructureVersion this)
                   (projectStateVersion this) (languageServiceEnabled this)
                   (compilerOptions this) trace).
Proof.
  unfold getScriptInfoForNormalizedPath.
  destruct scriptInfo as [info|], newlyAttached; simpl; try by eauto.
  - exists (calls this), (projectStateVersion this). by destruct this.
  - exists (calls this), (projectStateVersion this). by destruct this.
Qed.

Lemma bindingConsistent_perform lib op this :
  bindingConsistent this → bindingConsistent (perform lib op this).
Proof.
  unfold bindingConsistent.
  destruct op as [file|file detach| |r|options| | |lastKnownVersion|scriptInfo newlyAttached];
    simpl.
  - unfold addRoot. by destruct (isRoot file this).
  - unfold removeFile, removeRoot, removeReferencedFile, onLsHost.
    destruct (isRoot file this), detach; simpl; host_cases this.
  - done.
  - unfold updateGraph.
    destruct (languageServiceEnabled this) eqn:Henabled; simpl; [|by rewrite Henabled].
    destruct (program this) as [oldProgram|]; simpl; [|by rewrite Henabled].
    by destruct (bool_decide (programId (currentProgram r) ≠ programId oldProgram)),
         (oldStructureIsReused r); simpl; rewrite Henabled.
  - unfold setCompilerOptions, lsHost_setCompilationSettings.
    destruct options as [options|]; [|done]. simpl.
    destruct (languageServiceEnabled this) eqn:Henabled; intros [_ [Hhost Hservice]];
      rewrite Hhost; simpl; rewrite Henabled; by eauto.
  - intros [Hoptions _]. done.
  - intros [Hoptions _]. done.
  - destruct (getChangesSinceVersion_baseline_only lib lastKnownVersion this)
      as (names & reported & ->). done.
  - destruct (getScriptInfoForNormalizedPath_dirty_only scriptInfo newlyAttached this)
      as (trace & stateVersion & ->). done.
Qed.

Lemma bindingConsistent_newProject defaults kind name hasExplicitListOfFiles enabled options :
  bindingConsistent (newProject defaults kind name hasExplicitListOfFiles enabled options).
Proof. unfold bindingConsistent, newProject. destruct enabled; simpl; eauto. Qed.

Section ProjectInvariants.

Variable getDefaultLibFilePath : CompilerOptions → option NormalizedPath.
Variable getDefaultCompilerOptions : CompilerOptions.

(** X1.  The state version never goes down over a sequence of operations,
    and an operation raises it by one at most. *)
Theorem projectStateVersion_monotone (ops : list Operation) (this : Project) :
  projectStateVersion this ≤ projectStateVersion (run getDefaultLibFilePath ops this)
  ≤ projectStateVersion this + Z.of_nat (length ops).
Proof.
  revert this. induction ops as [|op ops IH]; intros this.
  - unfold run. simpl. lia.
  - rewrite run_cons. specialize (IH (perform getDefaultLibFilePath op this)).
    pose proof (projectStateVersion_perform getDefaultLibFilePath op this).
    simpl length. lia.
Qed.

(** X2.  In a project built by the constructor, whatever was done to it
    since, the last reported version is between 0 and the structure version,
    and the structure version is at most the number of [updateGraph] calls
    made. *)
Theorem reported_and_structure_versions
    (kind : ProjectKind) (name : string) (hasExplicitListOfFiles enabled : bool)
    (options : option CompilerOptions) (ops : list Operation) :
  let this :=
    run getDefaultLibFilePath ops
        (newProject getDefaultCompilerOptions kind name
                    hasExplicitListOfFiles enabled options) in
  0 ≤ lastReportedVersion this
  ∧ lastReportedVersion this ≤ projectStructureVersion this
  ∧ projectStructureVersion this ≤ countUpdateGraph ops.
Proof.
  simpl.
  pose proof (projectStructureVersion_run_le getDefaultLibFilePath ops
                (newProject getDefaultCompilerOptions kind name
                            hasExplicitListOfFiles enabled options)) as Hcount.
  assert (reportedVersionInv
            (run getDefaultLibFilePath ops
                 (newProject getDefaultCompilerOptions kind name
                             hasExplicitListOfFiles enabled options))) as [Hle _].
  { apply run_invariant; [apply reportedVersionInv_perform|].
    unfold reportedVersionInv, newProject. by destruct enabled. }
  assert (projectStructureVersion
            (newProject getDefaultCompilerOptions kind name
                        hasExplicitListOfFiles enabled options) = 0) as Hzero.
  { unfold newProject. by destruct enabled. }
  lia.
Qed.

(** X3.  In a project built by the constructor, whatever was done to it
    since, exactly one binding is active: with the language service enabled
    the host is a live one that holds the very options stored in the project,
    and with it disabled both the host and the language service are the null
    ones.  The stored options are never absent. *)
Theorem language_service_binding
    (kind : ProjectKind) (name : string) (hasExplicitListOfFiles enabled : bool)
    (options : option CompilerOptions) (ops : list Operation) :
  let this :=
    run getDefaultLibFilePath ops
        (newProject getDefaultCompilerOptions kind name
                    hasExplicitListOfFiles enabled options) in
  is_Some (getCompilerOptions this)
  ∧ (languageServiceEnabled this = true →
     lsHost this = LSHost (getCompilerOptions this)
     ∧ languageService this = createLanguageService)
  ∧ (languageServiceEnabled this = false →
     lsHost this = nullLanguageServiceHost
     ∧ languageService this = nullLanguageService).
Proof.
  simpl.
  assert (bindingConsistent
            (run getDefaultLibFilePath ops
                 (newProject getDefaultCompilerOptions kind name
                             hasExplicitListOfFiles enabled options))) as [Hsome Hbinding].
  { apply run_invariant; [apply bindingConsistent_perform|].
    apply bindingConsistent_newProject. }
  unfold getCompilerOptions. split; [done|].
  split; intros Henabled; by rewrite Henabled in Hbinding.
Qed.

End ProjectInvariants.

Lemma allowsNonTsExtensions_perform lib op this :
  allowsNonTsExtensions this → allowsNonTsExtensions (perform lib op this).
Proof.
  unfold allowsNonTsExtensions.
  destruct op as [file|file detach| |r|options| | |lastKnownVersion|scriptInfo newlyAttached];
    simpl.
  - unfold addRoot. by destruct (isRoot file this).
  - unfold removeFile, removeRoot, removeReferencedFile, onLsHost.
    destruct (isRoot file this), detach; simpl; host_cases this.
  - done.
  - unfold updateGraph. destruct (languageServiceEnabled this); simpl; [|done].
    by repeat case_match.
  - unfold setCompilerOptions, lsHost_setCompilationSettings.
    destruct options as [options|]; [|done]. intros _.
    exists (<[allowNonTsExtensions := OptBoolean true]> options).
    split; [simpl; by destruct (lsHost this)|apply lookup_insert_eq].
  - done.
  - done.
  - destruct (getChangesSinceVersion_baseline_only lib lastKnownVersion this)
      as (names & reported & ->). done.
  - destruct (getScriptInfoForNormalizedPath_dirty_only scriptInfo newlyAttached this)
      as (trace & stateVersion & ->). done.
Qed.

Lemma neverEnabled_perform lib op this :
  op ≠ OpEnableLanguageService →
  neverEnabled this → neverEnabled (perform lib op this).
Proof.
  unfold neverEnabled. intros Hop (Hdisabled & Hprogram & Hversion).
  destruct op as [file|file detach| |r|options| | |lastKnownVersion|scriptInfo newlyAttached];
    simpl.
  - unfold addRoot. by destruct (isRoot file this).
  - unfold removeFile, removeRoot, removeReferencedFile, onLsHost.
    destruct (isRoot file this), detach; simpl; host_cases this.
  - done.
  - unfold updateGraph. by rewrite Hdisabled.
  - unfold setCompilerOptions, lsHost_setCompilationSettings.
    destruct options as [options|]; [|done]. simpl. by destruct (lsHost this).
  - done.
  - done.
  - destruct (getChangesSinceVersion_baseline_only lib lastKnownVersion this)
      as (names & reported & ->). done.
  - destruct (getScriptInfoForNormalizedPath_dirty_only scriptInfo newlyAttached this)
      as (trace & stateVersion & ->). done.
Qed.

Section ConstructedProjects.

Variable getDefaultLibFilePath : CompilerOptions → option NormalizedPath.
Variable getDefaultCompilerOptions : CompilerOptions.

(** X4.  A project constructed without options, or with an explicit list of
    files (every inferred and every external project is one of these), has
    [allowNonTsExtensions] set in its stored options, and no operation ever
    stores options without it. *)
Theorem allowNonTsExtensions_is_kept
    (kind : ProjectKind) (name : string) (hasExplicitListOfFiles enabled : bool)
    (options : option CompilerOptions) (ops : list Operation) :
  options = None ∨ hasExplicitListOfFiles = true →
  ∃ stored,
    getCompilerOptions
      (run getDefaultLibFilePath ops
           (newProject getDefaultCompilerOptions kind name
                       hasExplicitListOfFiles enabled options)) = Some stored
    ∧ stored !! allowNonTsExtensions = Some (OptBoolean true).
Proof.
  intros Hforced. apply (run_invariant _ allowsNonTsExtensions).
  - apply allowsNonTsExtensions_perform.
  - unfold allowsNonTsExtensions, newProject.
    destruct options as [given|].
    + destruct Hforced as [?| ->]; [done|].
      exists (<[allowNonTsExtensions := OptBoolean true]> given).
      split; [by destruct enabled|apply lookup_insert_eq].
    + eexists. split; [by destruct enabled|].
      rewrite lookup_insert_ne by done. apply lookup_insert_eq.
Qed.

(** X5.  A project constructed with the language service disabled and on
    which [enableLanguageService] was never called has no program, keeps
    structure version 0 and reports no file, whatever roots were added:
    [getFileNames] is empty and [getChangesSinceVersion] never answers with a
    diff nor with a file. *)
Theorem disabled_project_reports_no_files
    (kind : ProjectKind) (name : string) (hasExplicitListOfFiles : bool)
    (options : option CompilerOptions) (ops : list Operation)
    (lastKnownVersion : option Z) :
  OpEnableLanguageService ∉ ops →
  let this :=
    run getDefaultLibFilePath ops
        (newProject getDefaultCompilerOptions kind name
                    hasExplicitListOfFiles false options) in
  let response := (getChangesSinceVersion getDefaultLibFilePath lastKnownVersion this).1 in
  program this = None
  ∧ projectStructureVersion this = 0
  ∧ getFileNames getDefaultLibFilePath this = []
  ∧ changes response = None
  ∧ (files response = None ∨ files response = Some []).
Proof.
  intros Hnever. simpl.
  assert (neverEnabled
            (newProject getDefaultCompilerOptions kind name
                        hasExplicitListOfFiles false options)
          ∧ reportedVersionInv
              (newProject getDefaultCompilerOptions kind name
                          hasExplicitListOfFiles false options)) as Hinit.
  { unfold neverEnabled, reportedVersionInv, newProject. simpl. done. }
  revert Hinit.
  generalize (newProject getDefaultCompilerOptions kind name
                         hasExplicitListOfFiles false options).
  induction ops as [|op ops IH]; intros this [Hthis Hreported].
  - unfold run. simpl. destruct Hthis as (Hdisabled & Hprogram & Hversion).
    destruct Hreported as [Hle Hnone].
    assert (getFileNames getDefaultLibFilePath this = []) as Hfiles.
    { unfold getFileNames. by rewrite Hprogram. }
    split; [done|]. split; [done|]. split; [done|].
    unfold getChangesSinceVersion. rewrite Hfiles.
    destruct (lastReportedFileNames this) as [last|]; simpl; [|by eauto].
    destruct (bool_decide (lastKnownVersion = Some (lastReportedVersion this)));
      simpl; [|by eauto].
    rewrite bool_decide_eq_true_2 by lia. simpl. by eauto.
  - rewrite run_cons. apply IH.
    + intros Hin. apply Hnever. by apply elem_of_cons; right.
    + split.
      * apply neverEnabled_perform; [|done].
        intros ->. apply Hnever. by apply elem_of_cons; left.
      * by apply reportedVersionInv_perform.
Qed.

End ConstructedProjects.

(** ** More on the diff protocol *)

Lemma baselineWellFormed_perform lib op this :
  baselineWellFormed this → baselineWellFormed (perform lib op this).
Proof.
  unfold baselineWellFormed. intros Hwf.
  destruct op as [file|file detach| |r|options| | |lastKnownVersion|scriptInfo newlyAttached];
    simpl.
  - unfold addRoot. by destruct (isRoot file this).
  - unfold removeFile, removeRoot, removeReferencedFile, onLsHost.
    destruct (isRoot file this), detach; simpl; host_cases this.
  - done.
  - unfold updateGraph. destruct (languageServiceEnabled this); simpl; [|done].
    by repeat case_match.
  - unfold setCompilerOptions, lsHost_setCompilationSettings.
    destruct options as [options|]; [|done]. simpl. by destruct (lsHost this).
  - done.
  - done.
  - unfold getChangesSinceVersion.
    destruct (lastReportedFileNames this) as [last|] eqn:Hlast; simpl.
    + destruct (bool_decide (lastKnownVersion = Some (lastReportedVersion this))); simpl.
      * destruct (bool_decide (projectStructureVersion this = lastReportedVersion this));
          simpl.
        -- by rewrite Hlast.
        -- intros ? [= <-]. apply NoDup_arrayToMap.
      * intros ? [= <-]. apply NoDup_arrayToMap.
    + intros ? [= <-]. apply NoDup_arrayToMap.
  - destruct (getScriptInfoForNormalizedPath_dirty_only scriptInfo newlyAttached this)
      as (trace & stateVersion & ->). done.
Qed.

Section DiffProtocolMore.

Variable getDefaultLibFilePath : CompilerOptions → option NormalizedPath.
Variable getDefaultCompilerOptions : CompilerOptions.

(** X6.  Whatever the state of the project and the version the caller
    names, a call of [getChangesSinceVersion] leaves a baseline whose version
    is the structure version, so that a call made right after it with the
    version it returned answers with the summary alone and changes nothing. *)
Theorem getChangesSinceVersion_settles (lastKnownVersion : option Z) (this : Project) :
  let first := getChangesSinceVersion getDefaultLibFilePath lastKnownVersion this in
  let second :=
    getChangesSinceVersion getDefaultLibFilePath (Some (version (info first.1))) first.2 in
  is_Some (lastReportedFileNames first.2)
  ∧ lastReportedVersion first.2 = projectStructureVersion first.2
  ∧ version (info first.1) = projectStructureVersion first.2
  ∧ files second.1 = None
  ∧ changes second.1 = None
  ∧ second.2 = first.2.
Proof.
  unfold getChangesSinceVersion.
  destruct (lastReportedFileNames this) as [last|] eqn:Hlast; simpl.
  - destruct (bool_decide (lastKnownVersion = Some (lastReportedVersion this))); simpl.
    + destruct (bool_decide (projectStructureVersion this = lastReportedVersion this))
        eqn:Hsame; simpl.
      * apply bool_decide_eq_true in Hsame. rewrite Hlast. simpl.
        rewrite (bool_decide_eq_true_2 (Some _ = Some _)) by congruence.
        rewrite (bool_decide_eq_true_2 _ Hsame). simpl. by eauto.
      * rewrite !bool_decide_eq_true_2 by done. by eauto.
    + rewrite !bool_decide_eq_true_2 by done. by eauto.
  - rewrite !bool_decide_eq_true_2 by done. by eauto.
Qed.

(** X7.  [getChangesSinceVersion] never answers with both a file list and a
    diff; its summary holds the name of the project, the current structure
    version and whether the project is an inferred one; a file list it
    returns is the one of [getFileNames]; and the call touches nothing but
    the baseline: roots, program, versions, options and bindings stay. *)
Theorem getChangesSinceVersion_response (lastKnownVersion : option Z) (this : Project) :
  let response := (getChangesSinceVersion getDefaultLibFilePath lastKnownVersion this).1 in
  let this' := (getChangesSinceVersion getDefaultLibFilePath lastKnownVersion this).2 in
  (files response = None ∨ changes response = None)
  ∧ info response
    = mkProjectInfo (projectName this) (projectStructureVersion this)
                    (bool_decide (projectKind this = Inferred))
  ∧ (files response = None ∨ files response = Some (getFileNames getDefaultLibFilePath this))
  ∧ (∃ names reported, this' = set_lastReported names reported this)
  ∧ getFileNames getDefaultLibFilePath this' = getFileNames getDefaultLibFilePath this
  ∧ projectStructureVersion this' = projectStructureVersion this
  ∧ projectStateVersion this' = projectStateVersion this
  ∧ rootFiles this' = rootFiles this.
Proof.
  simpl.
  destruct (getChangesSinceVersion_baseline_only getDefaultLibFilePath lastKnownVersion this)
    as (names & reported & Hframe).
  rewrite Hframe.
  split; [|split; [|split; [|split; [by eauto|done]]]];
    unfold getChangesSinceVersion; repeat case_match; simpl; by eauto.
Qed.

(** X8.  In a project built by the constructor, whatever was done to it
    since, a diff returned by [getChangesSinceVersion] lists no name twice,
    neither in [added] nor in [removed], and no name is in both lists. *)
Theorem diff_lists_are_sets
    (kind : ProjectKind) (name : string) (hasExplicitListOfFiles enabled : bool)
    (options : option CompilerOptions) (ops : list Operation)
    (lastKnownVersion : option Z) (diff : ProjectChanges) :
  let this :=
    run getDefaultLibFilePath ops
        (newProject getDefaultCompilerOptions kind name
                    hasExplicitListOfFiles enabled options) in
  changes (getChangesSinceVersion getDefaultLibFilePath lastKnownVersion this).1
  = Some diff →
  NoDup (added diff)
  ∧ NoDup (removed diff)
  ∧ ∀ file, file ∈ added diff → file ∉ removed diff.
Proof.
  simpl.
  assert (baselineWellFormed
            (run getDefaultLibFilePath ops
                 (newProject getDefaultCompilerOptions kind name
                             hasExplicitListOfFiles enabled options))) as Hwf.
  { apply run_invariant; [apply baselineWellFormed_perform|].
    unfold baselineWellFormed, newProject. by destruct enabled. }
  revert Hwf.
  generalize (run getDefaultLibFilePath ops
                  (newProject getDefaultCompilerOptions kind name
                              hasExplicitListOfFiles enabled options)).
  intros this Hwf. unfold getChangesSinceVersion.
  destruct (lastReportedFileNames this) as [last|] eqn:Hlast; simpl; [|done].
  destruct (bool_decide (lastKnownVersion = Some (lastReportedVersion this)));
    simpl; [|done].
  destruct (bool_decide (projectStructureVersion this = lastReportedVersion this));
    simpl; [done|].
  intros [= <-]. simpl. split; [|split].
  - apply NoDup_filter, NoDup_arrayToMap.
  - apply NoDup_filter. by apply Hwf.
  - intros file [Hcur Hnew]%elem_of_difference_loop [Hold _]%elem_of_difference_loop.
    done.
Qed.

(** X9.  A diff is what turns the baseline into the current file set: the
    baseline without the removed names, with the added names, is the set of
    names of [getFileNames]. *)
Theorem diff_applies_to_baseline
    (lastKnownVersion : option Z) (last : Map string) (diff : ProjectChanges)
    (this : Project) :
  lastReportedFileNames this = Some last →
  changes (getChangesSinceVersion getDefaultLibFilePath lastKnownVersion this).1
  = Some diff →
  (fileSet (ownKeys last) ∖ fileSet (removed diff)) ∪ fileSet (added diff)
  = fileSet (getFileNames getDefaultLibFilePath this).
Proof.
  intros Hlast. unfold getChangesSinceVersion. rewrite Hlast.
  destruct (bool_decide (lastKnownVersion = Some (lastReportedVersion this)));
    simpl; [|done].
  destruct (bool_decide (projectStructureVersion this = lastReportedVersion this));
    simpl; [done|].
  intros [= <-]. simpl.
  rewrite !fileSet_difference_loop, fileSet_arrayToMap.
  apply set_eq. intros file.
  rewrite elem_of_union, !elem_of_difference.
  destruct (decide (file ∈ fileSet (getFileNames getDefaultLibFilePath this)));
    destruct (decide (file ∈ fileSet (ownKeys last))); tauto.
Qed.

End DiffProtocolMore.

(** ** More on the root files *)

Lemma copyListRemovingItem_absent item l :
  path item ∉ path <$> l → copyListRemovingItem item l = l.
Proof.
  unfold copyListRemovingItem. induction l as [|e l IH]; simpl; [done|].
  intros Hnotin. rewrite filter_cons. apply not_elem_of_cons in Hnotin as [Hne Hrest].
  rewrite decide_True by done. f_equal. by apply IH.
Qed.

Lemma length_copyListRemovingItem item l :
  NoDup (path <$> l) → path item ∈ path <$> l →
  S (length (copyListRemovingItem item l)) = length l.
Proof.
  unfold copyListRemovingItem.
  induction l as [|e l IH]; simpl; intros Hnd Hin; [by apply elem_of_nil in Hin|].
  apply NoDup_cons in Hnd as [Hfresh Hnd]. rewrite filter_cons.
  destruct (decide (path e ≠ path item)) as [Hne|Heq].
  - simpl. f_equal. apply IH; [done|].
    apply elem_of_cons in Hin as [Heq|Hin]; [congruence|done].
  - apply dec_stable in Heq. f_equal.
    fold (copyListRemovingItem item l). f_equal.
    apply copyListRemovingItem_absent. by rewrite <- Heq.
Qed.

Lemma roots_removeFile info detachFromProject this :
  rootFiles (removeFile info detachFromProject this)
  = (if isRoot info this then copyListRemovingItem info (rootFiles this)
     else rootFiles this)
  ∧ rootFilesMap (removeFile info detachFromProject this)
    = (if isRoot info this then delete (path info) (rootFilesMap this)
       else rootFilesMap this).
Proof.
  unfold removeFile, removeRoot, removeReferencedFile, onLsHost.
  destruct (isRoot info this), detachFromProject; simpl; host_cases this.
Qed.

Section Roots.

Variable getDefaultLibFilePath : CompilerOptions → option NormalizedPath.

(** X10.  Adding a file that is not a root and removing it again gives back
    the list of roots and the index as they were; only the state version has
    moved, by two. *)
Theorem addRoot_then_removeFile
    (info : ScriptInfo) (detachFromProject : bool) (this : Project) :
  rootsConsistent this →
  isRoot info this = false →
  let this' := removeFile info detachFromProject (addRoot info this) in
  rootFiles this' = rootFiles this
  ∧ rootFilesMap this' = rootFilesMap this
  ∧ getRootFiles this' = getRootFiles this
  ∧ projectStateVersion this' = projectStateVersion this + 2.
Proof.
  intros (Hdom & Hnd & Hlook) Hroot. simpl.
  destruct (roots_removeFile info detachFromProject (addRoot info this)) as [Hlist Hmap].
  rewrite isRoot_addRoot in Hlist, Hmap.
  assert (rootFilesMap this !! path info = None) as Hnone by by apply isRoot_false.
  assert (path info ∉ path <$> rootFiles this) as Hfresh.
  { apply not_elem_of_dom in Hnone. rewrite Hdom in Hnone.
    by rewrite elem_of_list_to_set in Hnone. }
  assert (rootFiles (removeFile info detachFromProject (addRoot info this))
          = rootFiles this) as Hroots.
  { rewrite Hlist. unfold addRoot. rewrite Hroot. simpl.
    unfold copyListRemovingItem. rewrite filter_app, filter_cons, filter_nil.
    rewrite decide_False by (intros Hne; by apply Hne). rewrite app_nil_r.
    by apply copyListRemovingItem_absent. }
  split; [done|]. split.
  { rewrite Hmap. unfold addRoot. rewrite Hroot. simpl.
    rewrite delete_insert_eq. by apply delete_id. }
  split; [unfold getRootFiles; by rewrite Hroots|].
  assert (projectStateVersion (removeFile info detachFromProject (addRoot info this))
          = projectStateVersion (addRoot info this) + 1) as ->.
  { unfold removeFile, removeRoot, removeReferencedFile, onLsHost.
    destruct (isRoot info (addRoot info this)), detachFromProject; simpl;
      host_cases (addRoot info this). }
  unfold addRoot. rewrite Hroot. simpl. lia.
Qed.

(** X11.  Removing a root takes exactly that root away: it is a root no
    more, the list of roots is one shorter and keeps the order of the others,
    every other file is a root after the call if and only if it was one
    before, and list and index still agree. *)
Theorem removeFile_of_a_root
    (info : ScriptInfo) (detachFromProject : bool) (this : Project) :
  rootsConsistent this →
  isRoot info this = true →
  let this' := removeFile info detachFromProject this in
  isRoot info this' = false
  ∧ S (length (rootFiles this')) = length (rootFiles this)
  ∧ rootFiles this' `sublist_of` rootFiles this
  ∧ (∀ other, path other ≠ path info → isRoot other this' = isRoot other this)
  ∧ rootsConsistent this'.
Proof.
  intros Hcons Hroot. simpl.
  pose proof (rootsConsistent_removeFile info detachFromProject this Hcons) as Hcons'.
  destruct Hcons as (Hdom & Hnd & Hlook).
  destruct (roots_removeFile info detachFromProject this) as [Hlist Hmap].
  rewrite Hroot in Hlist, Hmap.
  split; [|split; [|split; [|split; [|done]]]].
  - apply isRoot_false. rewrite Hmap. apply lookup_delete_eq.
  - rewrite Hlist. apply length_copyListRemovingItem; [done|].
    apply isRoot_true in Hroot. rewrite Hdom in Hroot.
    by apply elem_of_list_to_set in Hroot.
  - rewrite Hlist. apply sublist_filter.
  - intros other Hne. unfold isRoot. rewrite Hmap.
    by rewrite lookup_delete_ne.
Qed.

(** X12.  The roots change by [addRoot] and [removeFile] alone: every other
    operation leaves the list of roots and the index as they are.  An
    [addRoot] of a file that is not a root puts it after the roots there
    are, which keep their order. *)
Theorem roots_change_by_addRoot_and_removeFile
    (op : Operation) (info : ScriptInfo) (this : Project) :
  ((∀ file, op ≠ OpAddRoot file) →
   (∀ file detachFromProject, op ≠ OpRemoveFile file detachFromProject) →
   rootFiles (perform getDefaultLibFilePath op this) = rootFiles this
   ∧ rootFilesMap (perform getDefaultLibFilePath op this) = rootFilesMap this)
  ∧ (isRoot info this = false →
     getRootFiles (addRoot info this) = getRootFiles this ++ [fileName info]
     ∧ rootFilesMap (addRoot info this) !! path info = Some info).
Proof.
  split.
  - destruct op as [file|file detach| |r|options| | |lastKnownVersion|scriptInfo newlyAttached];
      simpl; intros Hadd Hremove.
    + by destruct (Hadd file).
    + by destruct (Hremove file detach).
    + done.
    + unfold updateGraph. by repeat case_match.
    + unfold setCompilerOptions, lsHost_setCompilationSettings.
      destruct options as [options|]; [|done]. simpl. by destruct (lsHost this).
    + done.
    + done.
    + destruct (getChangesSinceVersion_baseline_only getDefaultLibFilePath
                  lastKnownVersion this) as (names & reported & ->). done.
    + destruct (getScriptInfoForNormalizedPath_dirty_only scriptInfo newlyAttached this)
        as (trace & stateVersion & ->). done.
  - intros Hroot. unfold addRoot, getRootFiles. rewrite Hroot. simpl.
    split; [by rewrite fmap_app|apply lookup_insert_eq].
Qed.

End Roots.

(** ** More on file lookup and recomputation *)

Section LookupAndRecompute.

Variable getDefaultLibFilePath : CompilerOptions → option NormalizedPath.
Variable registry : NormalizedPath → option ScriptInfo.

(** X13.  Asking [containsFile] to require an open file only ever loses
    answers: a boolean answered under [requireOpen] is the answer without it,
    and passing [false] is the same as passing nothing. *)
Theorem containsFile_requireOpen
    (filename : NormalizedPath) (answer : bool) (this : Project) :
  containsFile registry filename (Some false) this
  = containsFile registry filename None this
  ∧ (containsFile registry filename (Some true) this = Some answer →
     containsFile registry filename None this = Some answer).
Proof.
  unfold containsFile. split; [done|].
  destruct (registry filename) as [info|]; [|done]. simpl.
  by destruct (isOpen info).
Qed.

(** X14.  With the language service enabled, a file that [containsFile]
    says the project contains is one that [getFileNames] reports: the program
    has a source file with the path of the script info, and its name is in
    the list. *)
Theorem containsFile_is_reported
    (filename : NormalizedPath) (requireOpen : option bool) (this : Project) :
  languageServiceEnabled this = true →
  containsFile registry filename requireOpen this = Some true →
  ∃ info sourceFile,
    registry filename = Some info
    ∧ sourceFilePath sourceFile = path info
    ∧ sourceFileName sourceFile ∈ getFileNames getDefaultLibFilePath this.
Proof.
  intros Henabled. unfold containsFile, containsScriptInfo, getFileNames.
  destruct (registry filename) as [info|]; [|done].
  destruct (program this) as [program'|]; [|by repeat case_match].
  rewrite Henabled. simpl.
  destruct (negb (default false requireOpen) || isOpen info); [|done].
  intros [= Hfound%bool_decide_eq_true].
  apply getSourceFileByPath_is_Some in Hfound as (sourceFile & Hin & Hpath).
  exists info, sourceFile. split; [done|]. split; [done|].
  by apply list_elem_of_fmap_2.
Qed.

Lemma updateGraph_holding (r : GetProgramResult) (this : Project) :
  program this = Some (currentProgram r) →
  projectStructureVersion (updateGraph r this) = projectStructureVersion this
  ∧ program (updateGraph r this) = program this
  ∧ getFileNames getDefaultLibFilePath (updateGraph r this)
    = getFileNames getDefaultLibFilePath this.
Proof.
  intros Hprogram. unfold updateGraph.
  destruct (languageServiceEnabled this) eqn:Henabled; simpl; [|done].
  rewrite Hprogram.
  rewrite bool_decide_eq_false_2 by (intros Hne; by apply Hne). simpl.
  unfold getFileNames. simpl. by rewrite Hprogram, Henabled.
Qed.

(** X15.  Recomputing twice with the same answer of the engine bumps the
    structure version once at most: the second [updateGraph] finds the
    program object it already holds and keeps version, program and file
    names, whatever the reuse flag says.  With the language service enabled
    the file names after [updateGraph] are those of the program the engine
    returned. *)
Theorem updateGraph_again (r : GetProgramResult) (this : Project) :
  let once := updateGraph r this in
  let twice := updateGraph r once in
  projectStructureVersion twice = projectStructureVersion once
  ∧ program twice = program once
  ∧ getFileNames getDefaultLibFilePath twice = getFileNames getDefaultLibFilePath once
  ∧ (languageServiceEnabled this = true →
     program once = Some (currentProgram r)
     ∧ getFileNames getDefaultLibFilePath once
       = sourceFileName <$> getSourceFiles (currentProgram r)).
Proof.
  simpl. destruct (languageServiceEnabled this) eqn:Henabled.
  - assert (languageServiceEnabled (updateGraph r this) = true
            ∧ program (updateGraph r this) = Some (currentProgram r)) as [Hstill Hprogram].
    { unfold updateGraph. rewrite Henabled. simpl. by repeat case_match. }
    destruct (updateGraph_holding r (updateGraph r this) Hprogram) as (Hv & Hp & Hf).
    split; [done|]. split; [done|]. split; [done|]. intros _. split; [done|].
    unfold getFileNames. by rewrite Hprogram, Hstill.
  - assert (updateGraph r this = this) as ->.
    { unfold updateGraph. by rewrite Henabled. }
    assert (updateGraph r this = this) as ->.
    { unfold updateGraph. by rewrite Henabled. }
    done.
Qed.

End LookupAndRecompute.

(** ** Closing a project and releasing its watches *)

Lemma forEachValue_close (map : option (Map FileWatcher)) (service : ProjectService) :
  closedWatchers (forEachValue map FileWatcher_close service)
  = closedWatchers service ++ from_option (λ m, m.*2) [] map
  ∧ watches (forEachValue map FileWatcher_close service) = watches service.
Proof.
  destruct map as [map|]; simpl; [|by rewrite app_nil_r].
  revert service. induction map as [|[directory watcher] map IH]; intros service; simpl.
  - by rewrite app_nil_r.
  - destruct (IH (FileWatcher_close watcher service)) as [-> ->]. simpl.
    by rewrite <- app_assoc.
Qed.

Section ClosingFacts.

Variable getDefaultLibFilePath : CompilerOptions → option NormalizedPath.
Variable registry : NormalizedPath → option ScriptInfo.

Lemma detachFiles_known (fileNames : list NormalizedPath) :
  (∀ fileName, fileName ∈ fileNames → is_Some (registry fileName)) →
  registry <$> fileNames = Some <$> (detachFiles registry fileNames).1
  ∧ (detachFiles registry fileNames).2 = true.
Proof.
  induction fileNames as [|fileName rest IH]; intros Hknown; simpl; [done|].
  destruct (Hknown fileName) as [info Hinfo]; [by apply elem_of_cons; left|].
  rewrite Hinfo. destruct IH as [IHlist IHdone].
  { intros other Hin. apply Hknown. by apply elem_of_cons; right. }
  destruct (detachFiles registry rest) as [detached finished]. simpl in *.
  split; [|done]. by f_equal.
Qed.

Lemma detachFiles_unknown (fileNames : list NormalizedPath) (fileName : NormalizedPath) :
  fileName ∈ fileNames → registry fileName = None →
  (detachFiles registry fileNames).2 = false.
Proof.
  induction fileNames as [|first rest IH]; intros Hin Hnone; [by apply elem_of_nil in Hin|].
  simpl. destruct (registry first) as [info|] eqn:Hfirst; [|done].
  apply elem_of_cons in Hin as [->|Hin]; [congruence|].
  specialize (IH Hin Hnone). by destruct (detachFiles registry rest).
Qed.

(** X16.  [close] detaches the files that [getFileNames] lists, in that
    order, and then disposes of the language service: when the registry
    knows them all, the script infos detached are the registry's for those
    names and the call returns if the disposal does.  A file name the
    registry does not know makes the call throw.  A project without a
    program detaches nothing, whatever its roots. *)
Theorem Project_close_detaches (disposeReturns : bool) (this : Project) :
  let fileNames := getFileNames getDefaultLibFilePath this in
  let result := Project_close getDefaultLibFilePath registry disposeReturns this in
  ((∀ fileName, fileName ∈ fileNames → is_Some (registry fileName)) →
   registry <$> fileNames = Some <$> result.1 ∧ result.2 = disposeReturns)
  ∧ (∀ fileName, fileName ∈ fileNames → registry fileName = None → result.2 = false)
  ∧ (program this = None → result = ([], disposeReturns)).
Proof.
  simpl. unfold Project_close. split; [|split].
  - intros Hknown. destruct (detachFiles_known _ Hknown) as [Hlist Hdone].
    destruct (detachFiles registry _) as [detached finished]. simpl in *.
    by rewrite Hdone.
  - intros fileName Hin Hnone. pose proof (detachFiles_unknown _ _ Hin Hnone) as Hthrown.
    destruct (detachFiles registry _) as [detached finished]. simpl in *.
    by rewrite Hthrown.
  - intros Hprogram. unfold getFileNames. by rewrite Hprogram.
Qed.

(** X17.  [stopWatchingDirectory] closes the directory watch once: a second
    call closes nothing and changes nothing. *)
Theorem stopWatchingDirectory_once (this : ConfiguredProject) (service : ProjectService) :
  let once := stopWatchingDirectory this service in
  stopWatchingDirectory once.1 once.2 = once
  ∧ directoryWatcher once.1 = None
  ∧ closedWatchers once.2 = closedWatchers service ++ option_list (directoryWatcher this)
  ∧ watches once.2 = watches service.
Proof.
  unfold stopWatchingDirectory.
  destruct (directoryWatcher this) as [watcher|] eqn:Hwatcher; simpl.
  - done.
  - rewrite Hwatcher, app_nil_r. done.
Qed.

(** X18.  When the base [close] returns, closing a configured project closes
    the handles it holds, each once: the one of the configuration file, then
    those of the wildcard directories, then the one of the configuration
    directory.  It registers nothing, clears the wildcard map and the
    directory handle, and keeps the handle of the configuration file stored.
    When the base [close] throws, no watch is closed. *)
Theorem ConfiguredProject_close_releases
    (disposeReturns : bool) (detached : list ScriptInfo)
    (this : ConfiguredProject) (service : ProjectService) :
  let result :=
    ConfiguredProject_close getDefaultLibFilePath registry disposeReturns this service in
  (Project_close getDefaultLibFilePath registry disposeReturns (base this)
   = (detached, true) →
   closedWatchers result.1.2
   = closedWatchers service
     ++ option_list (projectFileWatcher this)
     ++ from_option (λ watchers, watchers.*2) [] (directoriesWatchedForWildcards this)
     ++ option_list (directoryWatcher this)
   ∧ watches result.1.2 = watches service
   ∧ directoryWatcher result.1.1 = None
   ∧ directoriesWatchedForWildcards result.1.1 = None
   ∧ projectFileWatcher result.1.1 = projectFileWatcher this
   ∧ result.2 = (detached, true))
  ∧ (Project_close getDefaultLibFilePath registry disposeReturns (base this)
     = (detached, false) →
     result = (this, service, (detached, false))).
Proof.
  simpl. unfold ConfiguredProject_close. split; intros ->; [|done].
  unfold stopWatchingDirectory. simpl.
  destruct (forEachValue_close (directoriesWatchedForWildcards this)
              (match projectFileWatcher this with
               | Some watcher => FileWatcher_close watcher service
               | None => service
               end)) as [Hclosed Hwatches].
  destruct (directoryWatcher this) as [directory|] eqn:Hdirectory,
           (projectFileWatcher this) as [file|] eqn:Hfile;
    simpl in *;
    rewrite ?Hdirectory, ?Hfile, ?Hclosed, ?Hwatches, ?app_nil_r, <- ?app_assoc;
    simpl; done.
Qed.

End ClosingFacts.

Lemma assign_fresh {T} (map : Map T) (key : string) (value : T) :
  key ∉ ownKeys map → assign map key value = map ++ [(key, value)].
Proof.
  unfold ownKeys. induction map as [|[k v] rest IH]; simpl; intros Hfresh; [done|].
  apply not_elem_of_cons in Hfresh as [Hne Hrest].
  rewrite decide_False by done. f_equal. by apply IH.
Qed.

Section WatchLifecycle.

Variable getDefaultLibFilePath : CompilerOptions → option NormalizedPath.
Variable registry : NormalizedPath → option ScriptInfo.
Variable getDirectoryPath : string → string.
Variable comparePaths : string → string → string → bool → Comparison.

Lemma watchWildcard_cases (callback : Callback) (this : ConfiguredProject)
    (watchers : Map FileWatcher) (service : ProjectService) (flag : Z) (directory : string) :
  let step :=
    watchWildcard comparePaths (getDirectoryPath (configFileName this)) callback
                  (watchers, service) flag directory in
  useCaseSensitiveFileNames step.2 = useCaseSensitiveFileNames service
  ∧ closedWatchers step.2 = closedWatchers service
  ∧ if decide (comparePaths (getDirectoryPath (configFileName this)) directory "."
                            (negb (useCaseSensitiveFileNames service)) ≠ EqualTo)
    then step.1 = assign watchers directory (length (watches service))
         ∧ watches step.2 = watches service ++ [wildcardWatch callback (directory, flag)]
    else step = (watchers, service).
Proof.
  unfold watchWildcard. simpl.
  destruct (decide (comparePaths _ directory "." _ ≠ EqualTo)) as [Hdiff|Hsame].
  - rewrite bool_decide_eq_true_2 by done. done.
  - rewrite bool_decide_eq_false_2 by done. done.
Qed.

Lemma watchWildcard_fold_handles (callback : Callback) (this : ConfiguredProject)
    (directories : Map Z) (watchers : Map FileWatcher) (service : ProjectService) :
  NoDup (ownKeys directories) →
  (∀ directory, directory ∈ ownKeys directories → directory ∉ ownKeys watchers) →
  let result :=
    foldl (λ acc kv,
             watchWildcard comparePaths (getDirectoryPath (configFileName this))
                           callback acc kv.2 kv.1)
          (watchers, service) directories in
  let registered :=
    length (wildcardsToWatch getDirectoryPath comparePaths this service directories) in
  result.1.*2 = watchers.*2 ++ seq (length (watches service)) registered
  ∧ length (watches result.2) = (length (watches service) + registered)%nat
  ∧ closedWatchers result.2 = closedWatchers service.
Proof.
  revert watchers service.
  induction directories as [|[directory flag] rest IH]; intros watchers service Hnd Hfresh.
  - simpl. rewrite app_nil_r. split; [done|]. split; [lia|done].
  - cbn [foldl fst snd].
    pose proof (watchWildcard_cases callback this watchers service flag directory)
      as (Hcase & Hclosed & Hstep).
    destruct (watchWildcard comparePaths (getDirectoryPath (configFileName this))
                            callback (watchers, service) flag directory)
      as [watchers1 service1].
    cbn [fst snd] in Hcase, Hclosed, Hstep.
    unfold ownKeys in Hnd. simpl in Hnd. apply NoDup_cons in Hnd as [Hhead Hnd].
    assert (wildcardsToWatch getDirectoryPath comparePaths this service1 rest
            = wildcardsToWatch getDirectoryPath comparePaths this service rest) as Hsame.
    { unfold wildcardsToWatch. by rewrite Hcase. }
    unfold wildcardsToWatch at 1 2. rewrite filter_cons. simpl.
    fold (wildcardsToWatch getDirectoryPath comparePaths this service rest).
    destruct (decide (comparePaths _ directory "." _ ≠ EqualTo)) as [Hdiff|Heq].
    + destruct Hstep as [-> Hwatches].
      rewrite assign_fresh by (apply Hfresh; unfold ownKeys; simpl; by left).
      destruct (IH (watchers ++ [(directory, length (watches service))]) service1)
        as (IHvalues & IHlength & IHclosed); [done| |].
      { intros other Hother. unfold ownKeys. rewrite fmap_app, elem_of_app. simpl.
        intros [Hin|Heq%list_elem_of_singleton].
        - eapply Hfresh; [|exact Hin]. unfold ownKeys. simpl. by right.
        - subst other. by apply Hhead. }
      rewrite Hsame in IHvalues, IHlength.
      rewrite IHvalues, IHlength, IHclosed, Hclosed, Hwatches, length_app, fmap_app.
      simpl. rewrite <- app_assoc. simpl.
      replace (length (watches service) + 1)%nat with (S (length (watches service)))
        by lia.
      split; [done|]. split; [lia|done].
    + injection Hstep as -> ->.
      destruct (IH watchers service) as (IHvalues & IHlength & IHclosed); [done| |done].
      intros other Hother. apply Hfresh. unfold ownKeys. simpl. by right.
Qed.

(** X19.  A configured project that holds no watch, after one
    [watchConfigFile], one [watchConfigDirectory] and one [watchWildcards]
    and then a [close] whose base part returns: every watch that was
    registered has been closed, once, and nothing else has.  The wildcard
    directories must be the keys of an object, none twice. *)
Theorem watches_are_released_on_close
    (callback : Callback) (disposeReturns : bool) (detached : list ScriptInfo)
    (this : ConfiguredProject) (service : ProjectService) :
  projectFileWatcher this = None →
  directoryWatcher this = None →
  directoriesWatchedForWildcards this = None →
  (∀ directories, wildcardDirectories this = Some directories →
                  NoDup (ownKeys directories)) →
  Project_close getDefaultLibFilePath registry disposeReturns (base this)
  = (detached, true) →
  let watched := Lifecycle.watchAll getDirectoryPath comparePaths callback this service in
  let closed :=
    ConfiguredProject_close getDefaultLibFilePath registry disposeReturns
                            watched.1 watched.2 in
  closedWatchers closed.1.2
  ≡ₚ closedWatchers service
     ++ seq (length (watches service))
            (length (watches watched.2) - length (watches service))
  ∧ watches closed.1.2 = watches watched.2
  ∧ (2 ≤ length (watches watched.2) - length (watches service))%nat.
Proof.
  intros Hfile Hdirectory Hwild Hkeys Hbase. simpl.
  unfold Lifecycle.watchAll, watchConfigFile, watchConfigDirectory. simpl.
  rewrite Hdirectory. simpl. unfold watchWildcards. simpl.
  unfold ConfiguredProject_close.
  destruct (wildcardDirectories this) as [directories|] eqn:Hdirs; simpl.
  - unfold reduceProperties.
    match goal with
    | |- context [foldl _ ([], ?s) directories] =>
        pose proof (watchWildcard_fold_handles callback this directories [] s
                      (Hkeys directories eq_refl)) as Hfold
    end.
    destruct Hfold as (Hvalues & Hlength & Hclosed);
      [by intros directory _ ?%elem_of_nil|].
    simpl in Hvalues, Hlength, Hclosed.
    destruct (foldl _ _ directories) as [watchers service1].
    cbn [fst snd] in Hvalues, Hlength, Hclosed. cbn [fst snd].
    rewrite !length_app in Hvalues, Hlength. simpl in Hvalues, Hlength.
    match type of Hlength with
    | _ = (_ + ?k)%nat => set (registered := k) in *; clearbody registered
    end.
    simpl. rewrite Hbase. unfold stopWatchingDirectory. simpl.
    destruct (forEachValue_close (Some watchers)
                (FileWatcher_close (length (watches service)) service1))
      as [Hreleased Hkept].
    simpl in Hreleased, Hkept. rewrite Hreleased, Hkept, Hclosed, Hvalues, Hlength.
    split; [|split; [done|lia]].
    replace (length (watches service) + 1 + 1 + registered - length (watches service))%nat
      with (S (S registered)) by lia.
    replace (length (watches service) + 1 + 1)%nat
      with (S (S (length (watches service)))) by lia.
    replace (length (watches service) + 1)%nat with (S (length (watches service)))
      by lia.
    rewrite <- !app_assoc. apply Permutation_app_head. simpl.
    apply Permutation_skip. rewrite Permutation_app_comm, length_app. simpl.
    by replace (length (watches service) + 1)%nat with (S (length (watches service)))
      by lia.
  - rewrite Hwild. simpl. rewrite Hbase. unfold stopWatchingDirectory. simpl.
    rewrite !length_app. simpl.
    replace (length (watches service) + 1 + 1 - length (watches service))%nat
      with 2%nat by lia.
    simpl. split; [|split; [done|lia]].
    rewrite <- !app_assoc. simpl.
    replace (length (watches service) + 1)%nat with (S (length (watches service)))
      by lia.
    done.
Qed.

End WatchLifecycle.

(** ** Inferred projects, and the listing of files *)

Section InferredProjects.

Variable getDefaultLibFilePath : CompilerOptions → option NormalizedPath.
Variable getDefaultCompilerOptions : CompilerOptions.
Variable makeInferredProjectName : Z → string.

Lemma newInferredProjects_names (NextId : Z) (enabled : list bool) :
  let result :=
    newInferredProjects getDefaultCompilerOptions makeInferredProjectName NextId enabled in
  inferredProjectName <$> result.1
  = makeInferredProjectName <$> seqZ NextId (Z.of_nat (length enabled))
  ∧ result.2 = NextId + Z.of_nat (length enabled)
  ∧ ∀ project, project ∈ result.1 →
               projectName (inferredBase project) = inferredProjectName project
               ∧ projectKind (inferredBase project) = Inferred.
Proof.
  revert NextId. induction enabled as [|e rest IH]; intros NextId.
  - simpl. split; [done|]. split; [lia|]. by intros project ?%elem_of_nil.
  - cbn [newInferredProjects]. unfold newInferredProject.
    specialize (IH (NextId + 1)).
    destruct (newInferredProjects getDefaultCompilerOptions makeInferredProjectName
                                  (NextId + 1) rest) as [projects counter].
    cbn [fst snd] in *. destruct IH as (IHnames & IHcounter & IHeach).
    split; [|split].
    + rewrite seqZ_cons by (simpl length; lia). rewrite fmap_cons. simpl.
      f_equal. rewrite IHnames. f_equal. f_equal; simpl length; lia.
    + rewrite IHcounter. simpl length. lia.
    + intros project [->|Hin]%elem_of_cons; [|by apply IHeach].
      simpl. unfold newProject. by destruct e.
Qed.

(** X20.  Inferred projects constructed one after the other take their
    names from consecutive values of the counter, which each construction
    leaves one higher: when [makeInferredProjectName] gives different names
    to different numbers, no two of the projects have the same name.  Each
    answers [getChangesSinceVersion] as an inferred project, under its
    name. *)
Theorem inferred_project_names_are_distinct (NextId : Z) (enabled : list bool) :
  Inj (=) (=) makeInferredProjectName →
  let result :=
    newInferredProjects getDefaultCompilerOptions makeInferredProjectName NextId enabled in
  NoDup (inferredProjectName <$> result.1)
  ∧ inferredProjectName <$> result.1
    = makeInferredProjectName <$> seqZ NextId (Z.of_nat (length enabled))
  ∧ result.2 = NextId + Z.of_nat (length enabled)
  ∧ ∀ project lastKnownVersion,
      project ∈ result.1 →
      let response :=
        (getChangesSinceVersion getDefaultLibFilePath lastKnownVersion
                                (inferredBase project)).1 in
      isInferred (info response) = true
      ∧ info_projectName (info response) = inferredProjectName project.
Proof.
  intros Hinj. simpl.
  destruct (newInferredProjects_names NextId enabled) as (Hnames & Hcounter & Heach).
  split; [|split; [done|split; [done|]]].
  - rewrite Hnames. apply NoDup_fmap_2; [done|]. apply NoDup_seqZ.
  - intros project lastKnownVersion Hin. destruct (Heach project Hin) as [Hname Hkind].
    unfold getChangesSinceVersion. rewrite Hkind, Hname.
    by repeat case_match.
Qed.

End InferredProjects.

Lemma string_app_assoc (s1 s2 s3 : string) : (s1 +:+ s2) +:+ s3 = s1 +:+ (s2 +:+ s3).
Proof.
  induction s1 as [|c s1 IH]; [done|].
  change (String c ((s1 +:+ s2) +:+ s3) = String c (s1 +:+ (s2 +:+ s3))).
  by rewrite IH.
Qed.

Lemma string_app_nil_r (s : string) : s +:+ EmptyString = s.
Proof.
  induction s as [|c s IH]; [done|].
  change (String c (s +:+ EmptyString) = String c s). by rewrite IH.
Qed.

Lemma filesToString_loop (strBuilder : string) (sourceFiles : list SourceFile) :
  foldl (λ strBuilder file, strBuilder +:+ (sourceFileName file +:+ newline))
        strBuilder sourceFiles
  = strBuilder +:+ unlines (sourceFileName <$> sourceFiles).
Proof.
  revert strBuilder. induction sourceFiles as [|file rest IH]; intros strBuilder; simpl.
  - by rewrite string_app_nil_r.
  - rewrite IH. by rewrite !string_app_assoc.
Qed.

Section Listing.

Variable getDefaultLibFilePath : CompilerOptions → option NormalizedPath.

(** X21.  With the language service enabled, [filesToString] prints the
    names that [getFileNames] lists, in the same order, each followed by a
    line break; without a program both are empty. *)
Theorem filesToString_lists_getFileNames (this : Project) :
  (languageServiceEnabled this = true →
   filesToString this = unlines (getFileNames getDefaultLibFilePath this))
  ∧ (program this = None →
     filesToString this = EmptyString ∧ getFileNames getDefaultLibFilePath this = []).
Proof.
  unfold filesToString, getFileNames. split.
  - intros ->. destruct (program this) as [program'|]; [|done]. simpl.
    apply filesToString_loop.
  - by intros ->.
Qed.

(** X22.  Disabling the language service keeps the program.  While it is
    disabled the project lists its root files, in order, followed by the
    default library when there is one, and [updateGraph] does nothing; once
    it is enabled again the project lists the files of the program it kept,
    without recomputing. *)
Theorem getFileNames_while_disabled
    (r : GetProgramResult) (kept : Program) (this : Project) :
  program this = Some kept →
  let disabled := disableLanguageService this in
  getFileNames getDefaultLibFilePath disabled
  = getRootFiles this ++ option_list (compilerOptions this ≫= getDefaultLibFilePath)
  ∧ updateGraph r disabled = disabled
  ∧ program disabled = Some kept
  ∧ projectStructureVersion disabled = projectStructureVersion this
  ∧ getFileNames getDefaultLibFilePath (enableLanguageService disabled)
    = sourceFileName <$> getSourceFiles kept.
Proof.
  intros Hprogram. simpl. unfold getFileNames, updateGraph. simpl.
  rewrite Hprogram. simpl. split; [|done].
  unfold getRootFiles.
  destruct (compilerOptions this) as [options|]; simpl; [|by rewrite app_nil_r].
  destruct (getDefaultLibFilePath options); simpl; [done|by rewrite app_nil_r].
Qed.

End Listing.

(** ** The further properties at work on the sample project *)

(** The sample project is the constructor followed by six operations. *)
Lemma language_service_binding_witness :
  let ops :=
    [OpAddRoot Sample.a_ts; OpAddRoot Sample.b_ts;
     OpUpdateGraph (mkGetProgramResult Sample.program1 false);
     OpGetChangesSinceVersion None; OpRemoveFile Sample.b_ts true;
     OpUpdateGraph (mkGetProgramResult Sample.program2 false);
     OpDisableLanguageService] in
  let this :=
    run Sample.noDefaultLib ops
        (newProject ∅ Configured "/proj/tsconfig.json" false true None) in
  languageServiceEnabled this = false
  ∧ lsHost this = nullLanguageServiceHost
  ∧ languageService this = nullLanguageService.
Proof.
  intros ops this.
  assert (languageServiceEnabled this = false) as Hdisabled by reflexivity.
  split; [exact Hdisabled|].
  destruct (language_service_binding Sample.noDefaultLib ∅ Configured
              "/proj/tsconfig.json" false true None ops) as (_ & _ & Hnull).
  exact (Hnull Hdisabled).
Defined.

(** An external project is constructed with an explicit list of files. *)
Lemma allowNonTsExtensions_is_kept_witness :
  (Some (∅ : CompilerOptions) = None ∨ true = true)
  ∧ ∃ stored,
      getCompilerOptions
        (run Sample.noDefaultLib [OpAddRoot Sample.a_ts; OpMarkAsDirty]
             (newExternalProject ∅ "external1" (Some ∅) true)) = Some stored
      ∧ stored !! allowNonTsExtensions = Some (OptBoolean true).
Proof.
  assert (Some (∅ : CompilerOptions) = None ∨ true = true) as Hforced
    by (right; reflexivity).
  split; [exact Hforced|].
  exact (allowNonTsExtensions_is_kept Sample.noDefaultLib ∅ External "external1"
           true true (Some ∅) [OpAddRoot Sample.a_ts; OpMarkAsDirty] Hforced).
Defined.

(** A project constructed disabled, given a root and asked to recompute. *)
Lemma disabled_project_reports_no_files_witness :
  let ops :=
    [OpAddRoot Sample.a_ts; OpUpdateGraph (mkGetProgramResult Sample.program1 false)] in
  let this :=
    run Sample.noDefaultLib ops
        (newProject ∅ Configured "/proj/tsconfig.json" false false None) in
  (OpEnableLanguageService ∉ ops)
  ∧ rootFiles this = [Sample.a_ts]
  ∧ getFileNames Sample.noDefaultLib this = []
  ∧ projectStructureVersion this = 0.
Proof.
  intros ops this.
  assert (OpEnableLanguageService ∉ ops) as Hnever.
  { intros Hin. apply elem_of_cons in Hin as [Heq|Hin]; [discriminate Heq|].
    apply elem_of_cons in Hin as [Heq|Hin]; [discriminate Heq|].
    by apply elem_of_nil in Hin. }
  split; [exact Hnever|]. split; [reflexivity|].
  destruct (disabled_project_reports_no_files Sample.noDefaultLib ∅ Configured
              "/proj/tsconfig.json" false None ops None Hnever)
    as (_ & Hversion & Hfiles & _).
  split; [exact Hfiles|exact Hversion].
Defined.

(** The diff of the sample project after [b.ts] was removed. *)
Lemma diff_lists_are_sets_witness :
  let ops :=
    [OpAddRoot Sample.a_ts; OpAddRoot Sample.b_ts;
     OpUpdateGraph (mkGetProgramResult Sample.program1 false);
     OpGetChangesSinceVersion None; OpRemoveFile Sample.b_ts true;
     OpUpdateGraph (mkGetProgramResult Sample.program2 false)] in
  let this :=
    run Sample.noDefaultLib ops
        (newProject ∅ Configured "/proj/tsconfig.json" false true None) in
  let diff := mkProjectChanges [] ["/proj/b.ts"] in
  changes (getChangesSinceVersion Sample.noDefaultLib (Some 1) this).1 = Some diff
  ∧ NoDup (added diff)
  ∧ NoDup (removed diff).
Proof.
  intros ops this diff.
  assert (changes (getChangesSinceVersion Sample.noDefaultLib (Some 1) this).1
          = Some diff) as Hdiff by reflexivity.
  split; [exact Hdiff|].
  destruct (diff_lists_are_sets Sample.noDefaultLib ∅ Configured "/proj/tsconfig.json"
              false true None ops (Some 1) diff Hdiff) as (Hadded & Hremoved & _).
  split; [exact Hadded|exact Hremoved].
Defined.

Lemma diff_applies_to_baseline_witness :
  let last :=
    [("/proj/a.ts", "/proj/a.ts"); ("/proj/b.ts", "/proj/b.ts");
     ("/lib/lib.d.ts", "/lib/lib.d.ts")] in
  let diff := mkProjectChanges [] ["/proj/b.ts"] in
  lastReportedFileNames Sample.project2 = Some last
  ∧ changes (getChangesSinceVersion Sample.noDefaultLib (Some 1) Sample.project2).1
    = Some diff
  ∧ (fileSet (ownKeys last) ∖ fileSet (removed diff)) ∪ fileSet (added diff)
    = fileSet (getFileNames Sample.noDefaultLib Sample.project2).
Proof.
  intros last diff.
  assert (lastReportedFileNames Sample.project2 = Some last) as Hlast by reflexivity.
  assert (changes (getChangesSinceVersion Sample.noDefaultLib (Some 1) Sample.project2).1
          = Some diff) as Hdiff by reflexivity.
  split; [exact Hlast|]. split; [exact Hdiff|].
  exact (diff_applies_to_baseline Sample.noDefaultLib (Some 1) last diff
           Sample.project2 Hlast Hdiff).
Defined.

Lemma rootsConsistent_sample : rootsConsistent Sample.project2.
Proof.
  unfold Sample.project2, Sample.project1, Sample.project0.
  apply run_invariant; [apply rootsConsistent_perform|].
  apply run_invariant; [apply rootsConsistent_perform|].
  apply rootsConsistent_newProject.
Defined.

(** [b.ts] is not a root of [Sample.project2]; [a.ts] is. *)
Lemma addRoot_then_removeFile_witness :
  rootsConsistent Sample.project2
  ∧ isRoot Sample.b_ts Sample.project2 = false
  ∧ rootFiles (removeFile Sample.b_ts true (addRoot Sample.b_ts Sample.project2))
    = rootFiles Sample.project2.
Proof.
  assert (isRoot Sample.b_ts Sample.project2 = false) as Hroot by reflexivity.
  split; [exact rootsConsistent_sample|]. split; [exact Hroot|].
  destruct (addRoot_then_removeFile Sample.b_ts true Sample.project2
              rootsConsistent_sample Hroot) as (Hroots & _).
  exact Hroots.
Defined.

Lemma removeFile_of_a_root_witness :
  rootsConsistent Sample.project2
  ∧ isRoot Sample.a_ts Sample.project2 = true
  ∧ isRoot Sample.a_ts (removeFile Sample.a_ts true Sample.project2) = false
  ∧ S (length (rootFiles (removeFile Sample.a_ts true Sample.project2)))
    = length (rootFiles Sample.project2).
Proof.
  assert (isRoot Sample.a_ts Sample.project2 = true) as Hroot by reflexivity.
  split; [exact rootsConsistent_sample|]. split; [exact Hroot|].
  destruct (removeFile_of_a_root Sample.a_ts true Sample.project2
              rootsConsistent_sample Hroot) as (Hgone & Hlength & _).
  split; [exact Hgone|exact Hlength].
Defined.

Lemma roots_change_by_addRoot_and_removeFile_witness :
  (∀ file, OpMarkAsDirty ≠ OpAddRoot file)
  ∧ (∀ file detachFromProject, OpMarkAsDirty ≠ OpRemoveFile file detachFromProject)
  ∧ isRoot Sample.b_ts Sample.project2 = false
  ∧ rootFiles (perform Sample.noDefaultLib OpMarkAsDirty Sample.project2)
    = rootFiles Sample.project2
  ∧ getRootFiles (addRoot Sample.b_ts Sample.project2)
    = getRootFiles Sample.project2 ++ [fileName Sample.b_ts].
Proof.
  assert (∀ file, OpMarkAsDirty ≠ OpAddRoot file) as Hadd by (intros file; discriminate).
  assert (∀ file detachFromProject, OpMarkAsDirty ≠ OpRemoveFile file detachFromProject)
    as Hremove by (intros file detachFromProject; discriminate).
  assert (isRoot Sample.b_ts Sample.project2 = false) as Hroot by reflexivity.
  split; [exact Hadd|]. split; [exact Hremove|]. split; [exact Hroot|].
  destruct (roots_change_by_addRoot_and_removeFile Sample.noDefaultLib OpMarkAsDirty
              Sample.b_ts Sample.project2) as [Hframe Happend].
  destruct (Hframe Hadd Hremove) as [Hroots _].
  destruct (Happend Hroot) as [Hnames _].
  split; [exact Hroots|exact Hnames].
Defined.

(** [a.ts] is open and a file of [Sample.program1]. *)
Lemma containsFile_requireOpen_witness :
  containsFile Sample.registry "/proj/a.ts" (Some true) Sample.project1 = Some true
  ∧ containsFile Sample.registry "/proj/a.ts" None Sample.project1 = Some true.
Proof.
  assert (containsFile Sample.registry "/proj/a.ts" (Some true) Sample.project1
          = Some true) as Hopen by reflexivity.
  split; [exact Hopen|].
  destruct (containsFile_requireOpen Sample.registry "/proj/a.ts" true Sample.project1)
    as [_ Hweaker].
  exact (Hweaker Hopen).
Defined.

Lemma containsFile_is_reported_witness :
  languageServiceEnabled Sample.project1 = true
  ∧ containsFile Sample.registry "/proj/a.ts" None Sample.project1 = Some true
  ∧ ∃ info sourceFile,
      Sample.registry "/proj/a.ts" = Some info
      ∧ sourceFilePath sourceFile = path info
      ∧ sourceFileName sourceFile ∈ getFileNames Sample.noDefaultLib Sample.project1.
Proof.
  assert (languageServiceEnabled Sample.project1 = true) as Henabled by reflexivity.
  assert (containsFile Sample.registry "/proj/a.ts" None Sample.project1 = Some true)
    as Hcontains by reflexivity.
  split; [exact Henabled|]. split; [exact Hcontains|].
  exact (containsFile_is_reported Sample.noDefaultLib Sample.registry "/proj/a.ts" None
           Sample.project1 Henabled Hcontains).
Defined.

Lemma updateGraph_again_witness :
  let r := mkGetProgramResult Sample.program2 false in
  languageServiceEnabled Sample.project1 = true
  ∧ projectStructureVersion (updateGraph r Sample.project1) = 2
  ∧ projectStructureVersion (updateGraph r (updateGraph r Sample.project1))
    = projectStructureVersion (updateGraph r Sample.project1)
  ∧ getFileNames Sample.noDefaultLib (updateGraph r Sample.project1)
    = sourceFileName <$> getSourceFiles Sample.program2.
Proof.
  intros r.
  assert (languageServiceEnabled Sample.project1 = true) as Henabled by reflexivity.
  split; [exact Henabled|]. split; [reflexivity|].
  destruct (updateGraph_again Sample.noDefaultLib r Sample.project1)
    as (Hversion & _ & _ & Hnames).
  destruct (Hnames Henabled) as [_ Hfiles].
  split; [exact Hversion|exact Hfiles].
Defined.

(** The registry of [Lifecycle] knows the three files of [Sample.project1];
    the one of [Sample] does not know the library file. *)
Lemma Project_close_detaches_witness :
  (∀ fileName, fileName ∈ getFileNames Sample.noDefaultLib Sample.project1 →
               is_Some (Lifecycle.registry fileName))
  ∧ ("/lib/lib.d.ts" ∈ getFileNames Sample.noDefaultLib Sample.project1)
  ∧ Sample.registry "/lib/lib.d.ts" = None
  ∧ program (addRoot Sample.a_ts Sample.project0) = None
  ∧ (Project_close Sample.noDefaultLib Lifecycle.registry true Sample.project1).2 = true
  ∧ (Project_close Sample.noDefaultLib Sample.registry true Sample.project1).2 = false
  ∧ Project_close Sample.noDefaultLib Sample.registry true
                  (addRoot Sample.a_ts Sample.project0) = ([], true).
Proof.
  assert (∀ fileName, fileName ∈ getFileNames Sample.noDefaultLib Sample.project1 →
                      is_Some (Lifecycle.registry fileName)) as Hknown.
  { intros fileName Hin. vm_compute in Hin.
    apply elem_of_cons in Hin as [->|Hin]; [by eexists|].
    apply elem_of_cons in Hin as [->|Hin]; [by eexists|].
    apply elem_of_cons in Hin as [->|Hin]; [by eexists|].
    by apply elem_of_nil in Hin. }
  assert ("/lib/lib.d.ts" ∈ getFileNames Sample.noDefaultLib Sample.project1) as Hin.
  { vm_compute. do 2 constructor. constructor. }
  assert (Sample.registry "/lib/lib.d.ts" = None) as Hunknown by reflexivity.
  assert (program (addRoot Sample.a_ts Sample.project0) = None) as Hnone by reflexivity.
  split; [exact Hknown|]. split; [exact Hin|]. split; [exact Hunknown|].
  split; [exact Hnone|].
  destruct (Project_close_detaches Sample.noDefaultLib Lifecycle.registry true
              Sample.project1) as (Hall & _).
  destruct (Project_close_detaches Sample.noDefaultLib Sample.registry true
              Sample.project1) as (_ & Hthrows & _).
  destruct (Project_close_detaches Sample.noDefaultLib Sample.registry true
              (addRoot Sample.a_ts Sample.project0)) as (_ & _ & Hnothing).
  destruct (Hall Hknown) as [_ Hreturned].
  split; [exact Hreturned|]. split; [exact (Hthrows _ Hin Hunknown)|exact (Hnothing Hnone)].
Defined.

(** The configured sample project after its three registrations. *)
Lemma ConfiguredProject_close_releases_witness :
  let watched :=
    Lifecycle.watchAll Sample.directoryOf Sample.samePath 7%nat
                       Lifecycle.configured1 Sample.host0 in
  let detached :=
    [Sample.a_ts; Sample.b_ts; mkScriptInfo "/lib/lib.d.ts" "/lib/lib.d.ts" false] in
  let closed :=
    ConfiguredProject_close Sample.noDefaultLib Lifecycle.registry true
                            watched.1 watched.2 in
  Project_close Sample.noDefaultLib Lifecycle.registry true (base watched.1)
  = (detached, true)
  ∧ closedWatchers closed.1.2 = [0; 2; 3; 1]%nat
  ∧ directoryWatcher closed.1.1 = None.
Proof.
  intros watched detached closed.
  assert (Project_close Sample.noDefaultLib Lifecycle.registry true (base watched.1)
          = (detached, true)) as Hbase by reflexivity.
  split; [exact Hbase|].
  destruct (ConfiguredProject_close_releases Sample.noDefaultLib Lifecycle.registry true
              detached watched.1 watched.2) as [Hreleases _].
  destruct (Hreleases Hbase) as (Hclosed & _ & Hdirectory & _).
  split; [exact Hclosed|exact Hdirectory].
Defined.

Lemma watches_are_released_on_close_witness :
  let watched :=
    Lifecycle.watchAll Sample.directoryOf Sample.samePath 7%nat
                       Lifecycle.configured1 Sample.host0 in
  let closed :=
    ConfiguredProject_close Sample.noDefaultLib Lifecycle.registry true
                            watched.1 watched.2 in
  length (watches watched.2) = 4%nat
  ∧ closedWatchers closed.1.2 ≡ₚ [0; 1; 2; 3]%nat.
Proof.
  intros watched closed. split; [reflexivity|].
  destruct (watches_are_released_on_close Sample.noDefaultLib Lifecycle.registry
              Sample.directoryOf Sample.samePath 7%nat true
              [Sample.a_ts; Sample.b_ts; mkScriptInfo "/lib/lib.d.ts" "/lib/lib.d.ts" false]
              Lifecycle.configured1 Sample.host0) as (Hclosed & _).
  - reflexivity.
  - reflexivity.
  - reflexivity.
  - intros directories Hdirectories. injection Hdirectories as <-.
    apply (bool_decide_unpack _). vm_compute. exact I.
  - reflexivity.
  - exact Hclosed.
Defined.

(** Three inferred projects, named by the decimal digits of the counter. *)
Lemma inferred_project_names_are_distinct_witness :
  let result := newInferredProjects ∅ Lifecycle.inferredName 1 [true; false; true] in
  Inj (=) (=) Lifecycle.inferredName
  ∧ inferredProjectName <$> result.1 = ["1"; "2"; "3"]
  ∧ NoDup (inferredProjectName <$> result.1)
  ∧ result.2 = 4.
Proof.
  intros result.
  assert (Inj (=) (=) Lifecycle.inferredName) as Hinj.
  { intros x y Heq. unfold Lifecycle.inferredName in Heq. by apply (inj pretty). }
  split; [exact Hinj|]. split; [reflexivity|].
  destruct (inferred_project_names_are_distinct Sample.noDefaultLib ∅
              Lifecycle.inferredName 1 [true; false; true] Hinj)
    as (Hdistinct & _ & Hcounter & _).
  split; [exact Hdistinct|exact Hcounter].
Defined.

Lemma filesToString_lists_getFileNames_witness :
  languageServiceEnabled Sample.project1 = true
  ∧ program Sample.project0 = None
  ∧ filesToString Sample.project1
    = unlines ["/proj/a.ts"; "/proj/b.ts"; "/lib/lib.d.ts"]
  ∧ filesToString Sample.project0 = EmptyString.
Proof.
  assert (languageServiceEnabled Sample.project1 = true) as Henabled by reflexivity.
  assert (program Sample.project0 = None) as Hnone by reflexivity.
  split; [exact Henabled|]. split; [exact Hnone|].
  destruct (filesToString_lists_getFileNames Sample.noDefaultLib Sample.project1)
    as [Hlisted _].
  destruct (filesToString_lists_getFileNames Sample.noDefaultLib Sample.project0)
    as [_ Hempty].
  split; [exact (Hlisted Henabled)|]. destruct (Hempty Hnone) as [Hstring _]. exact Hstring.
Defined.

Lemma getFileNames_while_disabled_witness :
  program Sample.project1 = Some Sample.program1
  ∧ getFileNames Sample.noDefaultLib (disableLanguageService Sample.project1)
    = ["/proj/a.ts"; "/proj/b.ts"]
  ∧ getFileNames Sample.noDefaultLib
                 (enableLanguageService (disableLanguageService Sample.project1))
    = ["/proj/a.ts"; "/proj/b.ts"; "/lib/lib.d.ts"].
Proof.
  assert (program Sample.project1 = Some Sample.program1) as Hprogram by reflexivity.
  split; [exact Hprogram|].
  destruct (getFileNames_while_disabled Sample.noDefaultLib
              (mkGetProgramResult Sample.program2 false) Sample.program1
              Sample.project1 Hprogram) as (Hroots & _ & _ & _ & Hprogramfiles).
  split; [exact Hroots|exact Hprogramfiles].
Defined.
